(** * OOTD inference service: request normalisation and job orchestration

    A shallow embedding of [handler.py], [main.py], [infer.py],
    [models.py] and [bg_removal/remover.py].  Job payloads are
    deserialised JSON values; the model, the segmentation network, the
    HTTP client and the image codec are external collaborators, gathered
    in a record of oracles ([World]).  Files and the lazily created model
    handles live in an explicit [State] that every effectful function
    threads through. *)

From Stdlib Require Import ZArith Lia Floats Ascii String.
From stdpp Require Import base option list strings pretty gmap.

Local Open Scope Z_scope.

(** ** Strings and POSIX paths *)

(** [c in s], for a single character [c]. *)
Fixpoint str_has (c : ascii) (s : string) : bool :=
  match s with
  | EmptyString => false
  | String a r => Ascii.eqb a c || str_has c r
  end.

(** [sub in s]: [sub] occurs at some offset of [s]. *)
Fixpoint str_in (sub s : string) : bool :=
  String.prefix sub s ||
  match s with
  | EmptyString => false
  | String _ r => str_in sub r
  end.

(** [s.startswith(p)] and [s.endswith(suffix)]. *)
Definition startswith (s p : string) : bool := String.prefix p s.

Fixpoint endswith (s suffix : string) : bool :=
  String.eqb s suffix ||
  match s with
  | EmptyString => false
  | String _ r => endswith r suffix
  end.

(** [s.rfind(c)]: the highest index holding [c], or [-1]. *)
Fixpoint rfind_from (c : ascii) (s : string) (i last : Z) : Z :=
  match s with
  | EmptyString => last
  | String a r => rfind_from c r (i + 1) (if Ascii.eqb a c then i else last)
  end.

Definition rfind (c : ascii) (s : string) : Z := rfind_from c s 0 (-1).

(** The slices [s[:i]] and [s[i:]], for [0 <= i]. *)
Definition str_take (i : Z) (s : string) : string :=
  String.substring 0 (Z.to_nat i) s.

Definition str_drop (i : Z) (s : string) : string :=
  String.substring (Z.to_nat i) (String.length s - Z.to_nat i) s.

Definition sep : ascii := "/"%char.
Definition extsep : ascii := "."%char.

(** [s.rstrip("/")] *)
Fixpoint rstrip_sep (s : string) : string :=
  match s with
  | EmptyString => EmptyString
  | String a r =>
      let r' := rstrip_sep r in
      if Ascii.eqb a sep && String.eqb r' "" then EmptyString else String a r'
  end.

(** [s == "/" * len(s)] *)
Fixpoint all_sep (s : string) : bool :=
  match s with
  | EmptyString => true
  | String a r => Ascii.eqb a sep && all_sep r
  end.

Module os_path.

(** [posixpath.basename] *)
Definition basename (p : string) : string :=
  let i := rfind sep p + 1 in
  str_drop i p.

(** [posixpath.dirname] *)
Definition dirname (p : string) : string :=
  let i := rfind sep p + 1 in
  let head := str_take i p in
  if negb (String.eqb head "") && negb (all_sep head) then rstrip_sep head else head.

(** The scan of [genericpath._splitext] over the leading dots of the
    file name: is some character of [p[k:dotIndex]] not a dot? *)
Definition not_only_dots (p : string) (k dotIndex : Z) : bool :=
  existsb (fun c => negb (Ascii.eqb c extsep))
    (list_ascii_of_string (String.substring (Z.to_nat k) (Z.to_nat (dotIndex - k)) p)).

(** [posixpath.splitext] *)
Definition splitext (p : string) : string * string :=
  let sepIndex := rfind sep p in
  let dotIndex := rfind extsep p in
  if (sepIndex <? dotIndex)%Z && not_only_dots p (sepIndex + 1) dotIndex
  then (str_take dotIndex p, str_drop dotIndex p)
  else (p, "").

(** One round of the loop of [posixpath.join]. *)
Definition join_step (path b : string) : string :=
  if startswith b "/" then b
  else if String.eqb path "" || endswith path "/" then path +:+ b
  else path +:+ "/" +:+ b.

(** [posixpath.join(a, *p)] *)
Definition join (a : string) (p : list string) : string :=
  fold_left join_step p a.

End os_path.

(** ** Values of a job payload *)

(** A decoded JSON document, as [json.loads] hands it to the handler.  A
    [dict] keeps its keys in insertion order, hence an association list. *)
#[warnings="-register-all"]
Inductive json : Type :=
| JNull
| JBool (b : bool)
| JInt (z : Z)
| JFloat (f : float)
| JStr (s : string)
| JList (l : list json)
| JDict (d : list (string * json)).

Abbreviation dict := (list (string * json)).

(** [d.get(key)] *)
Fixpoint dict_get (key : string) (d : dict) : option json :=
  match d with
  | [] => None
  | (k, v) :: d' => if String.eqb k key then Some v else dict_get key d'
  end.

(** [d[key] = v]: replaces in place, or appends a new key. *)
Fixpoint dict_set (key : string) (v : json) (d : dict) : dict :=
  match d with
  | [] => [(key, v)]
  | (k, x) :: d' =>
      if String.eqb k key then (k, v) :: d' else (k, x) :: dict_set key v d'
  end.

(** Python truthiness, [bool(x)]. *)
Definition truthy (v : json) : bool :=
  match v with
  | JNull => false
  | JBool b => b
  | JInt z => negb (Z.eqb z 0)
  | JFloat f => negb (PrimFloat.eqb f 0%float)
  | JStr s => negb (String.eqb s "")
  | JList l => negb (Nat.eqb (length l) 0)
  | JDict d => negb (Nat.eqb (length d) 0)
  end.

(** ** Exceptions *)

(** A raised exception: its class and the text [str(exc)] yields. *)
Record exn : Type := Exn { exn_class : string; exn_text : string }.

Inductive outcome (A : Type) : Type :=
| Ret (a : A)
| Raise (e : exn).
Arguments Ret {A} a.
Arguments Raise {A} e.

(** [type(x).__name__] *)
Definition py_type_name (v : json) : string :=
  match v with
  | JNull => "NoneType"
  | JBool _ => "bool"
  | JInt _ => "int"
  | JFloat _ => "float"
  | JStr _ => "str"
  | JList _ => "list"
  | JDict _ => "dict"
  end.

(** [len(x)] on a payload value.  A text is modelled as the sequence of its
    code points, one character each. *)
Definition py_len (v : json) : outcome nat :=
  match v with
  | JStr s => Ret (String.length s)
  | JList l => Ret (length l)
  | JDict d => Ret (length d)
  | _ => Raise (Exn "TypeError"
                  ("object of type '" +:+ py_type_name v +:+ "' has no len()"))
  end.

(** ** Flag resolver ([handler.py], [_bool_flags_for_images]) *)

(** The body of [for idx in range(n)], over the indices still to visit. *)
Fixpoint flags_loop (param : list json) (idxs : list nat) (flags : list bool)
  : outcome (list bool) :=
  match idxs with
  | [] => Ret flags
  | idx :: rest =>
      if (idx <? length param)%nat then
        match param !! idx with
        | Some x => flags_loop param rest (flags ++ [truthy x])
        | None => Raise (Exn "IndexError" "list index out of range")
        end
      else flags_loop param rest (flags ++ [false])
  end.

Definition _bool_flags_for_images (image_paths : json) (remove_background_param : json)
  : outcome (list bool) :=
  match py_len image_paths with
  | Raise e => Raise e
  | Ret n =>
      match remove_background_param with
      | JNull => Ret (replicate n false)
      | JBool b => Ret (replicate n b)
      | JList l => flags_loop l (seq 0 n) []
      | _ => Ret (replicate n false)
      end
  end.

(** [iter(x)] on a payload value: the items a [for] loop visits. *)
Definition py_iter (v : json) : outcome (list json) :=
  match v with
  | JStr s => Ret (map (fun c => JStr (String c EmptyString)) (list_ascii_of_string s))
  | JList l => Ret l
  | JDict d => Ret (map (fun kv => JStr (fst kv)) d)
  | _ => Raise (Exn "TypeError" ("'" +:+ py_type_name v +:+ "' object is not iterable"))
  end.

(** [x == s] for a string literal [s]. *)
Definition json_eq_str (v : json) (s : string) : bool :=
  match v with
  | JStr t => String.eqb t s
  | _ => false
  end.

(** [int(f)] on a float: truncation toward zero. *)
Definition float_trunc (f : float) : outcome Z :=
  match Prim2SF f with
  | S754_zero _ => Ret 0
  | S754_infinity _ => Raise (Exn "OverflowError" "cannot convert float infinity to integer")
  | S754_nan => Raise (Exn "ValueError" "cannot convert float NaN to integer")
  | S754_finite s m e =>
      let a := Z.shiftl (Zpos m) e in
      Ret (if s then - a else a)
  end.

(** [float(z)] on an integer: nearest double, or [OverflowError]. *)
Definition float_of_int (z : Z) : outcome float :=
  match binary_normalize prec emax z 0 false with
  | S754_infinity _ => Raise (Exn "OverflowError" "int too large to convert to float")
  | x => Ret (SF2Prim x)
  end.

(** ** Images and files *)

(** A decoded raster: its colour planes and, for an RGBA image, its
    alpha plane. *)
Record image : Type := Image {
  img_width : nat;
  img_height : nat;
  img_rgb : list (Z * Z * Z);
  img_alpha : option (list Z)
}.

(** [img.convert("RGB")]: the colour planes are kept, alpha is dropped. *)
Definition convert_RGB (img : image) : image :=
  {| img_width := img_width img; img_height := img_height img;
     img_rgb := img_rgb img; img_alpha := None |}.

(** ** External collaborators *)

(** How [img.save(path)] ends.  It picks the codec from the extension, then
    opens the target for writing, which empties it, then encodes: a call
    that fails before the target is opened leaves it alone, one that fails
    later leaves a target that holds no image. *)
Inductive save_outcome : Type :=
| Saved
| SaveRefused (e : exn)
| SaveBroken (e : exn).

(** The result of [urlparse]: the two components the code reads. *)
Record ParseResult : Type := { scheme : string; path : string }.

(** What the code consumes and does not implement: interpreter built-ins
    on text, the HTTP client, the codec, the two pretrained models and the
    operating system.  Each is a function of its arguments. *)
Record World : Type := {
  (** [repr(x)] *)
  py_repr : json -> string;
  (** the literal parsers behind [int(s)] and [float(s)] *)
  int_of_str : string -> option Z;
  float_of_str : string -> option float;
  (** [urllib.parse.urlparse], which raises [ValueError] on a reference it
      cannot split (an unbalanced bracket in the host part, for one) *)
  urlparse : string -> outcome ParseResult;
  (** the exception [urlparse] or [Image.open] raises on a reference that
      is not a string *)
  bad_reference : json -> exn;
  (** [requests.get(url, timeout=30)], [raise_for_status()] and the decoding
      [Image.open(BytesIO(response.content))] *)
  http_get_image : string -> outcome image;
  (** the exception [Image.open] raises on a path holding no image *)
  open_error : string -> exn;
  (** [rembg.new_session()] and [rembg.remove(img, session=...)] *)
  new_session : outcome unit;
  rembg_remove : image -> outcome image;
  (** [Flux2KleinPipeline.from_pretrained(...)], [_PIPELINE.to(device)] and
      the call [pipe(prompt=..., image=..., ...).images[0]] *)
  from_pretrained : outcome unit;
  to_device : outcome unit;
  pipe : json -> list image -> Z -> Z -> float -> Z -> outcome image;
  (** [img.save(buffer, format="PNG")] followed by [base64.b64encode] *)
  png_base64 : image -> string;
  (** [os.makedirs(path, exist_ok=True)] *)
  makedirs_error : string -> option exn;
  (** [img.save(path)]: how it ends, and what a file whose extension
      selects another codec than PNG decodes to afterwards *)
  image_save : string -> image -> save_outcome;
  transcode : string -> image -> image
}.

(** A call to a collaborator, in the order the job makes them. *)
Inductive call : Type :=
| CallHttpGet (url : string)
| CallImageOpen (p : string)
| CallNewSession
| CallRembgRemove (img : image)
| CallFromPretrained
| CallPipe (prompt : json) (images : list image)
| CallMakedirs (p : string)
| CallImageSave (p : string).

(** Process state: the files that decode as an image, with the image each
    holds ([Image.open(p).convert(...)] fails on any other path), the two
    lazily created model handles
    ([_BG_REMOVAL_SESSION], [_PIPELINE]: is the global still [None]?) and
    the log of collaborator calls. *)
Record State : Type := {
  fs : gmap string image;
  BG_REMOVAL_SESSION : bool;
  PIPELINE : bool;
  calls : list call
}.

(** ** The job monad: state and exceptions *)

Definition M (A : Type) : Type := State -> outcome A * State.

Definition ret {A} (a : A) : M A := fun σ => (Ret a, σ).
Definition raise {A} (e : exn) : M A := fun σ => (Raise e, σ).
Definition bind {A B} (m : M A) (k : A -> M B) : M B :=
  fun σ => match m σ with
           | (Ret a, σ') => k a σ'
           | (Raise e, σ') => (Raise e, σ')
           end.
(** [try: m except Exception as exc: h exc] *)
Definition try_except {A} (m : M A) (h : exn -> M A) : M A :=
  fun σ => match m σ with
           | (Ret a, σ') => (Ret a, σ')
           | (Raise e, σ') => h e σ'
           end.
Definition lift {A} (o : outcome A) : M A := fun σ => (o, σ).

Declare Scope job_scope.
Delimit Scope job_scope with job.
Notation "x <- m ;; k" := (bind m (fun x => k))
  (at level 100, m at next level, right associativity) : job_scope.
Notation "m ;;; k" := (bind m (fun _ => k))
  (at level 100, right associativity) : job_scope.
Local Open Scope job_scope.

Definition with_call (c : call) (σ : State) : State :=
  {| fs := fs σ; BG_REMOVAL_SESSION := BG_REMOVAL_SESSION σ;
     PIPELINE := PIPELINE σ; calls := calls σ ++ [c] |}.

Definition log (c : call) : M unit := fun σ => (Ret tt, with_call c σ).

Definition write_file (p : string) (img : image) : M unit :=
  fun σ => (Ret tt, {| fs := <[p := img]> (fs σ);
                       BG_REMOVAL_SESSION := BG_REMOVAL_SESSION σ;
                       PIPELINE := PIPELINE σ; calls := calls σ |}).

Definition remove_file (p : string) : M unit :=
  fun σ => (Ret tt, {| fs := delete p (fs σ);
                       BG_REMOVAL_SESSION := BG_REMOVAL_SESSION σ;
                       PIPELINE := PIPELINE σ; calls := calls σ |}).

Definition set_session : M unit :=
  fun σ => (Ret tt, {| fs := fs σ; BG_REMOVAL_SESSION := true;
                       PIPELINE := PIPELINE σ; calls := calls σ |}).

Definition set_pipeline : M unit :=
  fun σ => (Ret tt, {| fs := fs σ; BG_REMOVAL_SESSION := BG_REMOVAL_SESSION σ;
                       PIPELINE := true; calls := calls σ |}).

(** ** Built-in conversions *)

Section Builtins.
Variable w : World.

(** [str(x)], also what an f-string field renders. *)
Definition py_str (v : json) : string :=
  match v with
  | JStr s => s
  | JNull => "None"
  | JBool true => "True"
  | JBool false => "False"
  | JInt z => pretty z
  | _ => py_repr w v
  end.

(** [int(x)] *)
Definition py_int (v : json) : outcome Z :=
  match v with
  | JBool b => Ret (if b then 1 else 0)
  | JInt z => Ret z
  | JFloat f => float_trunc f
  | JStr s =>
      match int_of_str w s with
      | Some z => Ret z
      | None => Raise (Exn "ValueError" ("invalid literal for int() with base 10: "
                                         +:+ py_repr w v))
      end
  | _ => Raise (Exn "TypeError"
                  ("int() argument must be a string, a bytes-like object or a real number, not '"
                   +:+ py_type_name v +:+ "'"))
  end.

(** [float(x)] *)
Definition py_float (v : json) : outcome float :=
  match v with
  | JBool b => Ret (if b then 1%float else 0%float)
  | JInt z => float_of_int z
  | JFloat f => Ret f
  | JStr s =>
      match float_of_str w s with
      | Some f => Ret f
      | None => Raise (Exn "ValueError" ("could not convert string to float: "
                                         +:+ py_repr w v))
      end
  | _ => Raise (Exn "TypeError"
                  ("float() argument must be a string or a real number, not '"
                   +:+ py_type_name v +:+ "'"))
  end.

(** ** Effects on files and directories *)

(** [Image.open(path)] on a local path. *)
Definition Image_open (p : string) : M image :=
  log (CallImageOpen p) ;;;
  σ <- (fun σ => (Ret σ, σ)) ;;
  match fs σ !! p with
  | Some img => ret img
  | None => raise (open_error w p)
  end.

(** [img.save(path)]: the codec follows the extension; a PNG file holds
    the image as it is.  A save that fails after it opened the target
    leaves no image there. *)
Definition Image_save (img : image) (p : string) : M unit :=
  log (CallImageSave p) ;;;
  match image_save w p img with
  | Saved => write_file p (if endswith p ".png" then img else transcode w p img)
  | SaveRefused e => raise e
  | SaveBroken e => remove_file p ;;; raise e
  end.

(** [os.makedirs(path, exist_ok=True)] *)
Definition makedirs (p : string) : M unit :=
  log (CallMakedirs p) ;;;
  match makedirs_error w p with
  | Some e => raise e
  | None => ret tt
  end.

(** A reference handed to [urlparse] and [Image.open] must be a string;
    any other value makes one of them raise before anything is read. *)
Definition as_reference (v : json) : M string :=
  match v with
  | JStr s => ret s
  | _ => raise (bad_reference w v)
  end.

Definition is_http (s : string) : bool :=
  String.eqb s "http" || String.eqb s "https".

(** ** Background removal ([bg_removal/remover.py]) *)

Definition _get_session : M unit :=
  σ <- (fun σ => (Ret σ, σ)) ;;
  if BG_REMOVAL_SESSION σ then ret tt
  else (log CallNewSession ;;; lift (new_session w) ;;; set_session).

(** The file name chosen when [output_path is None]. *)
Definition derived_base_name (parsed : ParseResult) (image_path_or_url : string)
  : string :=
  let base_name :=
    if is_http (scheme parsed) then
      let base_name :=
        let b := os_path.basename (path parsed) in
        if String.eqb b "" then "image" else b in
      if negb (str_has extsep base_name) then base_name +:+ ".png" else base_name
    else
      let base_name := os_path.basename image_path_or_url in
      if negb (str_has extsep base_name) then base_name +:+ ".png" else base_name in
  if negb (endswith base_name ".png")
  then fst (os_path.splitext base_name) +:+ ".png"
  else base_name.

Definition default_output_dir : string := "outputs/bg_removed".

Definition remove_background (image_path_or_url : string)
    (output_path : option string) (output_dir : string) : M string :=
  parsed <- lift (urlparse w image_path_or_url) ;;
  input_image <-
    (if is_http (scheme parsed) then
       log (CallHttpGet image_path_or_url) ;;;
       img <- lift (http_get_image w image_path_or_url) ;;
       ret (convert_RGB img)
     else
       img <- Image_open image_path_or_url ;;
       ret (convert_RGB img)) ;;
  _get_session ;;;
  log (CallRembgRemove input_image) ;;;
  output_image <- lift (rembg_remove w input_image) ;;
  output_path <-
    match output_path with
    | None =>
        makedirs output_dir ;;;
        ret (os_path.join output_dir [derived_base_name parsed image_path_or_url])
    | Some p => ret p
    end ;;
  makedirs (if negb (String.eqb (os_path.dirname output_path) "")
            then os_path.dirname output_path else ".") ;;;
  Image_save output_image output_path ;;;
  ret output_path.

(** ** Generation ([infer.py]) *)

Definition _load_pipeline : M unit :=
  σ <- (fun σ => (Ret σ, σ)) ;;
  if PIPELINE σ then ret tt
  else (log CallFromPretrained ;;; lift (from_pretrained w) ;;; set_pipeline ;;;
      lift (to_device w)).

Definition _load_image (path_or_url : string) : M image :=
  parsed <- lift (urlparse w path_or_url) ;;
  if is_http (scheme parsed) then
    log (CallHttpGet path_or_url) ;;;
    img <- lift (http_get_image w path_or_url) ;;
    ret (convert_RGB img)
  else
    img <- Image_open path_or_url ;;
    ret (convert_RGB img).

(** [for path in image_paths: images.append(_load_image(path))] *)
Fixpoint load_images (image_paths : list json) (images : list image)
  : M (list image) :=
  match image_paths with
  | [] => ret images
  | p :: rest =>
      r <- as_reference p ;;
      img <- _load_image r ;;
      load_images rest (images ++ [img])
  end.

Definition run_inference (prompt : json) (image_paths : list json)
    (height width : Z) (guidance_scale : float) (num_inference_steps : Z)
  : M string :=
  _load_pipeline ;;;
  images <- load_images image_paths [] ;;
  log (CallPipe prompt images) ;;;
  result <- lift (pipe w prompt images height width guidance_scale num_inference_steps) ;;
  ret (png_base64 w result).

End Builtins.

(** ** Queue handler ([handler.py]) *)

(** The job result dictionary; [InferenceResponse] has the same fields. *)
Record result : Type := Result {
  success : bool;
  image_base64 : option string;
  error_message : option string
}.

Definition succeeded (payload : string) : result :=
  {| success := true; image_base64 := Some payload; error_message := None |}.

Definition failed (msg : string) : result :=
  {| success := false; image_base64 := None; error_message := Some msg |}.

Section Handler.
Variable w : World.

Definition get_or (key : string) (default : json) (d : dict) : json :=
  match dict_get key d with
  | Some v => v
  | None => default
  end.

(** [_encode_image_file_to_base64] *)
Definition _encode_image_file_to_base64 (p : string) : M string :=
  img <- Image_open w p ;;
  let img := convert_RGB img in
  ret (png_base64 w img).

(** The loop of [_handle_infer] over [enumerate(image_paths)]. *)
Fixpoint preprocess_loop (tmp_dir : string) (flags : list bool) (idx : nat)
    (items : list json) (processed_paths : list json) : M (list json) :=
  match items with
  | [] => ret processed_paths
  | p :: rest =>
      match flags !! idx with
      | None => raise (Exn "IndexError" "list index out of range")
      | Some true =>
          let output_path := os_path.join tmp_dir ["img_" +:+ pretty idx +:+ ".png"] in
          r <- as_reference w p ;;
          processed_path <- remove_background w r (Some output_path) default_output_dir ;;
          preprocess_loop tmp_dir flags (S idx) rest (processed_paths ++ [JStr processed_path])
      | Some false =>
          preprocess_loop tmp_dir flags (S idx) rest (processed_paths ++ [p])
      end
  end.

Definition _handle_infer (job_input : dict) (job_id : string) : M result :=
  let prompt := get_or "prompt" JNull job_input in
  let image_paths := get_or "image_paths" JNull job_input in
  if negb (truthy prompt) || negb (truthy image_paths) then
    ret (failed "Both 'prompt' and 'image_paths' are required for infer task.")
  else
    height <- lift (py_int w (get_or "height" (JInt 1024) job_input)) ;;
    width <- lift (py_int w (get_or "width" (JInt 1024) job_input)) ;;
    guidance_scale <- lift (py_float w (get_or "guidance_scale" (JFloat 1%float) job_input)) ;;
    num_inference_steps <- lift (py_int w (get_or "num_inference_steps" (JInt 10) job_input)) ;;
    let remove_background_param := get_or "remove_background" JNull job_input in
    flags <- lift (_bool_flags_for_images image_paths remove_background_param) ;;
    let tmp_dir := os_path.join "/tmp" ["bg_removed"; job_id] in
    makedirs w tmp_dir ;;;
    items <- lift (py_iter image_paths) ;;
    processed_paths <- preprocess_loop tmp_dir flags 0 items [] ;;
    try_except
      (image_base64 <- run_inference w prompt processed_paths height width
                         guidance_scale num_inference_steps ;;
       ret (succeeded image_base64))
      (fun exc => ret (failed (exn_text exc))).

Definition _handle_remove_background (job_input : dict) (job_id : string)
  : M result :=
  let image_path := get_or "image_path" JNull job_input in
  if negb (truthy image_path) then
    ret (failed "'image_path' is required for remove_background task.")
  else
    let tmp_dir := os_path.join "/tmp" ["bg_removed"; job_id] in
    makedirs w tmp_dir ;;;
    let output_path := os_path.join tmp_dir ["removed.png"] in
    try_except
      (r <- as_reference w image_path ;;
       processed_path <- remove_background w r (Some output_path) default_output_dir ;;
       image_base64 <- _encode_image_file_to_base64 processed_path ;;
       ret (succeeded image_base64))
      (fun exc => ret (failed (exn_text exc))).

Definition handler (event : dict) : M result :=
  let job_id := py_str w (get_or "id" (JStr "unknown") event) in
  let input := get_or "input" JNull event in
  let job_input := if truthy input then input else JDict [] in
  match job_input with
  | JDict job_input =>
      let task_type := get_or "task_type" (JStr "infer") job_input in
      if json_eq_str task_type "infer" then _handle_infer job_input job_id
      else if json_eq_str task_type "remove_background"
           then _handle_remove_background job_input job_id
      else ret (failed ("Unknown task_type: " +:+ py_str w task_type))
  | _ => raise (Exn "AttributeError"
                  ("'" +:+ py_type_name job_input +:+ "' object has no attribute 'get'"))
  end.

End Handler.

(** ** HTTP surface ([models.py], [bg_removal/models.py], [main.py]) *)

Record InferenceRequest : Type := {
  prompt : string;
  image_paths : list string;
  height : Z;
  width : Z;
  guidance_scale : float;
  num_inference_steps : Z
}.

(** The bounds [min_items] and [max_items] of the field [image_paths]. *)
Definition image_paths_min_items : nat := 1.
Definition image_paths_max_items : nat := 4.

(** The constraints the request schema puts on a body of the right types. *)
Definition InferenceRequest_valid (r : InferenceRequest) : bool :=
  (image_paths_min_items <=? length (image_paths r))%nat &&
  (length (image_paths r) <=? image_paths_max_items)%nat.

Record BackgroundRemovalRequest : Type := {
  image_path : string;
  output_path : option string
}.

Record BackgroundRemovalResponse : Type := {
  removal_success : bool;
  removal_output_path : option string;
  removal_error_message : option string
}.

(** What a [POST] answers: the endpoint's response model, or the
    framework's own validation error for a body the schema refuses. *)
Inductive http_response (A : Type) : Type :=
| Ok200 (body : A)
| Unprocessable422.
Arguments Ok200 {A} body.
Arguments Unprocessable422 {A}.

Section Http.
Variable w : World.

(** [POST /infer] *)
Definition infer (request : InferenceRequest) : M result :=
  try_except
    (image_base64 <- run_inference w (JStr (prompt request))
                       (map JStr (image_paths request)) (height request)
                       (width request) (guidance_scale request)
                       (num_inference_steps request) ;;
     ret (succeeded image_base64))
    (fun exc => ret (failed (exn_text exc))).

(** [POST /remove_background] *)
Definition remove_bg (request : BackgroundRemovalRequest)
  : M BackgroundRemovalResponse :=
  try_except
    (output_path <- remove_background w (image_path request)
                      (output_path request) default_output_dir ;;
     ret {| removal_success := true; removal_output_path := Some output_path;
            removal_error_message := None |})
    (fun exc => ret {| removal_success := false; removal_output_path := None;
                       removal_error_message := Some (exn_text exc) |}).

(** The route [/infer] as the framework serves it: the body is checked
    against the schema before [infer] runs. *)
Definition post_infer (request : InferenceRequest) : M (http_response result) :=
  if InferenceRequest_valid request then
    r <- infer request ;; ret (Ok200 r)
  else ret Unprocessable422.

End Http.

(** ** Reference definitions for the properties *)

(** The flag position [i] receives from a selector list. *)
Definition flag_at (param : list json) (i : nat) : bool :=
  match param !! i with
  | Some x => truthy x
  | None => false
  end.

(** A terminal result carries its payload exactly when it succeeded, and
    an error message exactly when it failed. *)
Definition result_wf (r : result) : Prop :=
  (success r = true -> is_Some (image_base64 r) /\ error_message r = None) /\
  (success r = false -> image_base64 r = None /\ is_Some (error_message r)).

Definition removal_wf (r : BackgroundRemovalResponse) : Prop :=
  (removal_success r = true ->
     is_Some (removal_output_path r) /\ removal_error_message r = None) /\
  (removal_success r = false ->
     removal_output_path r = None /\ is_Some (removal_error_message r)).

(** *** The naming rule in the words of the specification

    The basename of the reference (of the URL's path, for a URL), ["image"]
    if that is empty, with the extension forced to [".png"].  The rule is
    written on its own, by recursion on the text, and calls none of the
    path functions the code uses. *)

(** What follows the last slash of [p], when [p] has a slash. *)
Fixpoint after_last_sep (p : string) : option string :=
  match p with
  | EmptyString => None
  | String c r =>
      match after_last_sep r with
      | Some t => Some t
      | None => if Ascii.eqb c "/" then Some r else None
      end
  end.

Definition last_component (p : string) : string :=
  match after_last_sep p with
  | Some t => t
  | None => p
  end.

(** What precedes the last dot of [s], when [s] has a dot. *)
Fixpoint before_last_dot (s : string) : option string :=
  match s with
  | EmptyString => None
  | String c r =>
      match before_last_dot r with
      | Some t => Some (String c t)
      | None => if Ascii.eqb c "." then Some EmptyString else None
      end
  end.

Fixpoint only_dots (s : string) : bool :=
  match s with
  | EmptyString => true
  | String c r => Ascii.eqb c "." && only_dots r
  end.

(** A file name without its extension: the text from the last dot on is
    the extension, unless nothing but dots comes before that dot. *)
Definition without_extension (name : string) : string :=
  match before_last_dot name with
  | Some t => if only_dots t then name else t
  | None => name
  end.

(** The last four characters of the name are [".png"]. *)
Definition has_png_extension (name : string) : bool :=
  String.eqb (String.substring (String.length name - 4) 4 name) ".png".

Definition force_png (name : string) : string :=
  if has_png_extension name then name
  else without_extension name +:+ ".png".

Definition spec_output_name (parsed : ParseResult) (reference : string) : string :=
  let b := last_component (if is_http (scheme parsed) then path parsed else reference) in
  force_png (if String.eqb b "" then "image" else b).

(** The sentence every infer job with a missing field is answered with. *)
Definition infer_required : string :=
  "Both 'prompt' and 'image_paths' are required for infer task.".

(** The directory [remove_background] makes before it saves. *)
Definition parent_dir (output_path : string) : string :=
  if negb (String.eqb (os_path.dirname output_path) "")
  then os_path.dirname output_path else ".".

(** The reference can be loaded: fetched and decoded for a URL, present on
    disk for a local path. *)
Definition loads (w : World) (σ : State) (parsed : ParseResult) (reference : string)
    (img : image) : Prop :=
  if is_http (scheme parsed)
  then http_get_image w reference = Ret img
  else fs σ !! reference = Some img.

(** The reference is taken for a local path by [urlparse] and the file
    behind it holds the image. *)
Definition local_image (w : World) (σ : State) (r : string) (img : image) : Prop :=
  exists parsed, urlparse w r = Ret parsed /\
                 is_http (scheme parsed) = false /\
                 fs σ !! r = Some img.

(** Every value [m] returns satisfies [P]; an exception satisfies it
    vacuously. *)
Definition yields {A} (P : A -> Prop) (m : M A) : Prop :=
  forall σ, match fst (m σ) with Ret a => P a | Raise _ => True end.

(** [m] always returns, and what it returns satisfies [P]. *)
Definition always {A} (P : A -> Prop) (m : M A) : Prop :=
  forall σ, exists a σ', m σ = (Ret a, σ') /\ P a.

(** A POSIX file system holds no regular file under a path that is empty
    or ends in a slash. *)
Definition posix_files (σ : State) : Prop :=
  forall (p : string), is_Some (fs σ !! p) -> last_component p <> "".

(** ** Relations between the state before and after a run *)

(** Whatever state [m] starts in, the state it ends in is related to it
    by [R], whether [m] returns or raises. *)
Definition keeps {A} (R : State -> State -> Prop) (m : M A) : Prop :=
  forall σ, R σ (snd (m σ)).

(** No file was written. *)
Definition same_files (σ σ' : State) : Prop := fs σ' = fs σ.

(** A model handle that was set is still set. *)
Definition handles_kept (σ σ' : State) : Prop :=
  (BG_REMOVAL_SESSION σ = true -> BG_REMOVAL_SESSION σ' = true) /\
  (PIPELINE σ = true -> PIPELINE σ' = true).

(** The calls logged between [σ] and [σ']. *)
Definition new_calls (σ σ' : State) : list call :=
  drop (length (calls σ)) (calls σ').

(** The paths the loop of [_handle_infer] hands to the generator: the
    output of background removal for a flagged image, the reference itself
    otherwise. *)
Fixpoint expected_paths (tmp_dir : string) (flags : list bool) (idx : nat)
    (items : list json) : list json :=
  match items with
  | [] => []
  | p :: rest =>
      (match flags !! idx with
       | Some true => JStr (os_path.join tmp_dir ["img_" +:+ pretty idx +:+ ".png"])
       | _ => p
       end) :: expected_paths tmp_dir flags (S idx) rest
  end.

(** ** A sample world *)

Fixpoint from_first_sep (s : string) : string :=
  match s with
  | EmptyString => EmptyString
  | String a r => if Ascii.eqb a sep then s else from_first_sep r
  end.

(** [urlparse] on plain references: an [http(s)://host/path] URL with no
    query or fragment, or a local path. *)
Definition sample_urlparse (s : string) : ParseResult :=
  if String.prefix "http://" s
  then {| scheme := "http"; path := from_first_sep (str_drop 7 s) |}
  else if String.prefix "https://" s
  then {| scheme := "https"; path := from_first_sep (str_drop 8 s) |}
  else {| scheme := ""; path := s |}.

Definition sample_person : image :=
  {| img_width := 2; img_height := 1;
     img_rgb := [(200, 180, 160); (12, 40, 90)]; img_alpha := None |}.

(** A segmentation that keeps the first pixel and clears the others. *)
Definition sample_cutout (img : image) : image :=
  {| img_width := img_width img; img_height := img_height img;
     img_rgb := img_rgb img;
     img_alpha := Some (match img_rgb img with
                        | [] => []
                        | _ :: rest => 255 :: map (fun _ => 0) rest
                        end) |}.

(** A stand-in for the PNG and base64 encoders: it tells images apart by
    their planes. *)
Definition sample_png_base64 (img : image) : string :=
  "png:" +:+ pretty (length (img_rgb img)) +:+
  match img_alpha img with
  | None => ":rgb"
  | Some a => ":rgba:" +:+ pretty (length (filter (fun x => x = 255) a))
  end.

Definition sample_world : World :=
  {| py_repr := fun v =>
       match v with
       | JStr s => "'" +:+ s +:+ "'"
       | _ => "<object>"
       end;
     int_of_str := fun _ => None;
     float_of_str := fun _ => None;
     urlparse := fun s =>
       if str_in "//[" s && negb (str_has "]" s)
       then Raise (Exn "ValueError" "Invalid IPv6 URL")
       else Ret (sample_urlparse s);
     bad_reference := fun _ => Exn "AttributeError" "object has no attribute 'decode'";
     http_get_image := fun url =>
       if String.prefix "https://cdn.example/" url then Ret sample_person
       else Raise (Exn "ConnectionError" "connection refused");
     open_error := fun p =>
       Exn "FileNotFoundError" ("[Errno 2] No such file or directory: '" +:+ p +:+ "'");
     new_session := Ret tt;
     rembg_remove := fun img => Ret (sample_cutout img);
     from_pretrained := Ret tt;
     to_device := Ret tt;
     pipe := fun _ images _ _ _ _ =>
       match images with
       | [] => Raise (Exn "ValueError" "no input image")
       | img :: _ => Ret img
       end;
     png_base64 := sample_png_base64;
     makedirs_error := fun _ => None;
     image_save := fun _ _ => Saved;
     transcode := fun _ img => convert_RGB img |}.

(** A fresh process with two input files on disk. *)
Definition sample_state : State :=
  {| fs := {[ "person.png" := sample_person; "top.jpg" := sample_person ]};
     BG_REMOVAL_SESSION := false; PIPELINE := false; calls := [] |}.

(** A process whose disk holds pictures inside a directory. *)
Definition wardrobe_state : State :=
  {| fs := {[ "looks/coat.JPG" := sample_person; "looks/scan" := sample_person ]};
     BG_REMOVAL_SESSION := true; PIPELINE := false; calls := [] |}.

(** ** Sample jobs *)

(** The exception a missing [missing.png] makes [Image.open] raise. *)
Definition missing_file_error : exn :=
  Exn "FileNotFoundError" "[Errno 2] No such file or directory: 'missing.png'".

(** A queue job with five images. *)
Definition five_images_job : dict :=
  [("id", JStr "job-5");
   ("input", JDict [("prompt", JStr "a red coat");
                    ("image_paths",
                     JList [JStr "person.png"; JStr "top.jpg"; JStr "person.png";
                            JStr "top.jpg"; JStr "person.png"])])].

(** A queue job for background removal only. *)
Definition remove_background_job : dict :=
  [("id", JInt 7);
   ("input", JDict [("task_type", JStr "remove_background");
                    ("image_path", JStr "person.png")])].

(** A queue job with a fractional height and a boolean step count. *)
Definition sized_job : dict :=
  [("id", JStr "job-7");
   ("input", JDict [("prompt", JStr "a red coat");
                    ("image_paths", JList [JStr "person.png"; JStr "top.jpg"]);
                    ("height", JFloat 512.5); ("num_inference_steps", JBool true)])].

(** * Evaluation on sample inputs *)

Example basename_ex :
  os_path.basename "/a/b.jpg" = "b.jpg" /\ os_path.basename "dir/" = "" /\
  os_path.basename "b.jpg" = "b.jpg".
Proof. repeat split; reflexivity. Qed.

Example splitext_ex :
  os_path.splitext "photo.jpg" = ("photo", ".jpg") /\
  os_path.splitext ".bashrc" = (".bashrc", "") /\
  os_path.splitext "a.tar.gz" = ("a.tar", ".gz") /\
  os_path.splitext "..png" = ("..png", "").
Proof. repeat split; reflexivity. Qed.

Example dirname_join_ex :
  os_path.dirname "/tmp/bg_removed/j1/removed.png" = "/tmp/bg_removed/j1" /\
  os_path.dirname "removed.png" = "" /\ os_path.dirname "/x" = "/" /\
  os_path.join "/tmp" ["bg_removed"; "j1"] = "/tmp/bg_removed/j1".
Proof. repeat split; reflexivity. Qed.

Example flags_two_of_three :
  _bool_flags_for_images (JList [JStr "a"; JStr "b"; JStr "c"])
    (JList [JBool true; JBool false]) = Ret [true; false; false].
Proof. reflexivity. Qed.

Example truthy_float : truthy (JFloat 0.5%float) = true /\ truthy (JFloat 0%float) = false.
Proof. split; reflexivity. Qed.

Example flags_broadcast :
  _bool_flags_for_images (JList [JStr "a"; JStr "b"]) (JBool true) = Ret [true; true].
Proof. reflexivity. Qed.

Example flags_other_shape :
  _bool_flags_for_images (JList [JStr "a"; JStr "b"]) (JInt 1) = Ret [false; false] /\
  _bool_flags_for_images (JList [JStr "a"]) (JList [JInt 0; JStr "yes"; JNull]) = Ret [false].
Proof. split; reflexivity. Qed.

Example conversions_ex :
  py_int sample_world (JFloat (-2.75)%float) = Ret (-2) /\
  py_int sample_world (JBool true) = Ret 1 /\
  py_float sample_world (JInt 3) = Ret 3%float /\
  py_str sample_world (JInt (-12)) = "-12".
Proof. repeat split; reflexivity. Qed.

(** On a local reference that ends in a slash the naming code itself would
    yield [".png"]; no run gets there, since such a path cannot be opened. *)
Example derived_base_name_ex :
  derived_base_name (sample_urlparse "https://cdn.example/") "https://cdn.example/"
    = "image.png" /\
  derived_base_name (sample_urlparse "looks/coat.JPG") "looks/coat.JPG" = "coat.png" /\
  derived_base_name (sample_urlparse "archive.tar.gz") "archive.tar.gz" = "archive.tar.png" /\
  derived_base_name (sample_urlparse "looks/") "looks/" = ".png" /\
  fst (remove_background sample_world "looks/" None default_output_dir sample_state)
    = Raise (open_error sample_world "looks/").
Proof. repeat split; vm_compute; reflexivity. Qed.

(** A reference [urlparse] refuses raises before anything is opened, also
    when a file of that very name is on disk. *)
Example refused_reference_ex :
  remove_background sample_world "x://[a/b.png" None default_output_dir
    {| fs := {[ "x://[a/b.png" := sample_person ]};
       BG_REMOVAL_SESSION := false; PIPELINE := false; calls := [] |}
  = (Raise (Exn "ValueError" "Invalid IPv6 URL"),
     {| fs := {[ "x://[a/b.png" := sample_person ]};
        BG_REMOVAL_SESSION := false; PIPELINE := false; calls := [] |}).
Proof. reflexivity. Qed.

Example unknown_task_type_number :
  fst (handler sample_world [("input", JDict [("task_type", JInt 5)])] sample_state)
  = Ret (failed "Unknown task_type: 5").
Proof. vm_compute. reflexivity. Qed.

(** * Properties *)

(** ** Strings *)

Lemma append_nil_l (s : string) : "" +:+ s = s.
Proof. reflexivity. Qed.

Lemma append_cons (c : ascii) (a s : string) : String c a +:+ s = String c (a +:+ s).
Proof. reflexivity. Qed.

Lemma str_in_prefix (sub s : string) : String.prefix sub s = true -> str_in sub s = true.
Proof. intros H. destruct s; cbn [str_in]; by rewrite H. Qed.

Lemma prefix_refl (s : string) : String.prefix s s = true.
Proof.
  induction s as [|c s IH]; cbn [String.prefix]; [reflexivity|].
  destruct (ascii_dec c c); [exact IH | congruence].
Qed.

Lemma str_in_app (pre sub : string) : str_in sub (pre +:+ sub) = true.
Proof.
  induction pre as [|c pre IH].
  - rewrite append_nil_l. apply str_in_prefix, prefix_refl.
  - rewrite append_cons. cbn [str_in]. rewrite IH. apply orb_true_r.
Qed.

Lemma endswith_refl (s : string) : endswith s s = true.
Proof. destruct s; simpl; by rewrite ?String.eqb_refl, ?Ascii.eqb_refl. Qed.

Lemma endswith_app (a b suffix : string) :
  endswith b suffix = true -> endswith (a +:+ b) suffix = true.
Proof.
  intros H. induction a as [|c a IH]; [exact H|].
  rewrite append_cons. cbn [endswith]. rewrite IH. apply orb_true_r.
Qed.

Lemma endswith_has (c : ascii) (s suffix : string) :
  str_has c suffix = true -> endswith s suffix = true -> str_has c s = true.
Proof.
  intros Hc. induction s as [|a s IH]; cbn [endswith]; intros H.
  - rewrite orb_false_r in H. apply String.eqb_eq in H. by subst suffix.
  - apply orb_true_iff in H as [H|H].
    + apply String.eqb_eq in H. subst suffix. exact Hc.
    + cbn [str_has]. rewrite (IH H). apply orb_true_r.
Qed.

Lemma rfind_from_absent (c : ascii) (s : string) (i last : Z) :
  str_has c s = false -> rfind_from c s i last = last.
Proof.
  revert i last. induction s as [|a s IH]; simpl; intros i last H; [reflexivity|].
  apply orb_false_iff in H as [Ha Hs]. rewrite Ha. by apply IH.
Qed.

Lemma rfind_from_lower (c : ascii) (s : string) (i last : Z) :
  last < i -> last <= rfind_from c s i last.
Proof.
  revert i last. induction s as [|a s IH]; simpl; intros i last H; [lia|].
  destruct (Ascii.eqb a c).
  - specialize (IH (i + 1) i). lia.
  - specialize (IH (i + 1) last). lia.
Qed.

Lemma splitext_no_dot (name : string) :
  str_has extsep name = false -> os_path.splitext name = (name, "").
Proof.
  intros H. unfold os_path.splitext, rfind.
  rewrite (rfind_from_absent extsep name 0 (-1) H).
  pose proof (rfind_from_lower sep name 0 (-1)).
  destruct (rfind_from sep name 0 (-1) <? -1)%Z eqn:E; [|reflexivity].
  apply Z.ltb_lt in E. lia.
Qed.

Lemma str_has_app (c : ascii) (a b : string) :
  str_has c (a +:+ b) = str_has c a || str_has c b.
Proof.
  induction a as [|x a IH]; [reflexivity|].
  rewrite append_cons. cbn [str_has]. by rewrite IH, orb_assoc.
Qed.

Lemma str_has_substring (c : ascii) (s : string) :
  str_has c s = false -> forall n m, str_has c (String.substring n m s) = false.
Proof.
  induction s as [|a s IH]; intros H n m.
  - by destruct n, m.
  - cbn [str_has] in H. apply orb_false_iff in H as [Ha Hs].
    destruct n as [|n]; [destruct m as [|m]|]; cbn [String.substring str_has];
      [reflexivity| |by apply IH].
    by rewrite Ha, IH.
Qed.

(** What follows the last occurrence of [c] holds no [c]. *)
Lemma rfind_from_tail (c : ascii) (s : string) :
  forall i last : Z, last < i ->
    (str_has c s = false /\ rfind_from c s i last = last) \/
    (i <= rfind_from c s i last /\
     forall m, str_has c
       (String.substring (Z.to_nat (rfind_from c s i last - i + 1)) m s) = false).
Proof.
  induction s as [|a s IH]; intros i last Hlt; [by left|].
  cbn [rfind_from str_has].
  destruct (IH (i + 1) (if Ascii.eqb a c then i else last)) as [[Hs Hr]|[Hge Hs]].
  { destruct (Ascii.eqb a c); lia. }
  - rewrite Hr. destruct (Ascii.eqb a c) eqn:Ha.
    + right. split; [lia|]. intros m.
      replace (Z.to_nat (i - i + 1)) with 1%nat by lia.
      cbn [String.substring]. by apply str_has_substring.
    + left. by rewrite Hs.
  - right. split; [lia|]. intros m.
    replace (Z.to_nat (rfind_from c s (i + 1) (if Ascii.eqb a c then i else last) - i + 1))
      with (S (Z.to_nat (rfind_from c s (i + 1) (if Ascii.eqb a c then i else last)
                         - (i + 1) + 1))) by lia.
    cbn [String.substring]. apply Hs.
Qed.

Lemma basename_no_sep (p : string) : str_has sep (os_path.basename p) = false.
Proof.
  unfold os_path.basename, str_drop, rfind.
  destruct (rfind_from_tail sep p 0 (-1)) as [[Hp Hr]|[Hge Hs]]; [lia| |].
  - rewrite Hr. by apply str_has_substring.
  - specialize (Hs (String.length p - Z.to_nat (rfind_from sep p 0 (-1) + 1))%nat).
    by replace (rfind_from sep p 0 (-1) - 0 + 1) with (rfind_from sep p 0 (-1) + 1)
      in Hs by lia.
Qed.

Lemma splitext_root_no_sep (name : string) :
  str_has sep name = false -> str_has sep (fst (os_path.splitext name)) = false.
Proof.
  intros H. unfold os_path.splitext.
  destruct (_ && _); [|exact H]. by apply str_has_substring.
Qed.

Lemma derived_base_name_no_sep (parsed : ParseResult) (reference : string) :
  str_has sep (derived_base_name parsed reference) = false.
Proof.
  assert (forall b, str_has sep b = false ->
            str_has sep (if negb (str_has extsep b) then b +:+ ".png" else b) = false)
    as Hadd.
  { intros b Hb. destruct (negb (str_has extsep b)); [|exact Hb].
    by rewrite str_has_app, Hb. }
  assert (forall b, str_has sep b = false ->
            str_has sep (if negb (endswith b ".png")
                         then fst (os_path.splitext b) +:+ ".png" else b) = false)
    as Hforce.
  { intros b Hb. destruct (negb (endswith b ".png")); [|exact Hb].
    by rewrite str_has_app, splitext_root_no_sep. }
  unfold derived_base_name. apply Hforce.
  destruct (is_http (scheme parsed)); apply Hadd; [|apply basename_no_sep].
  destruct (String.eqb _ ""); [reflexivity | apply basename_no_sep].
Qed.

Lemma derived_base_name_endswith (parsed : ParseResult) (reference : string) :
  endswith (derived_base_name parsed reference) ".png" = true.
Proof.
  unfold derived_base_name; cbv zeta.
  match goal with
  | |- endswith (if negb (endswith ?x _) then _ else _) _ = _ => generalize x; intros b
  end.
  destruct (endswith b ".png") eqn:E; cbn [negb]; [exact E|].
  by apply endswith_app.
Qed.

Lemma length_append (a b : string) :
  String.length (a +:+ b) = (String.length a + String.length b)%nat.
Proof.
  induction a as [|c a IH]; [reflexivity|].
  rewrite append_cons. cbn [String.length]. by rewrite IH.
Qed.

Lemma substring_all (s : string) : String.substring 0 (String.length s) s = s.
Proof. induction s as [|c s IH]; [reflexivity|]. cbn. by rewrite IH. Qed.

Lemma substring_app_skip (a s : string) (m : nat) :
  String.substring (String.length a) m (a +:+ s) = String.substring 0 m s.
Proof.
  induction a as [|c a IH]; [reflexivity|].
  rewrite append_cons. cbn [String.length String.substring]. exact IH.
Qed.

Lemma rfind_from_app_last (c : ascii) (a name : string) :
  str_has c name = false ->
  forall i last : Z,
    rfind_from c (a +:+ String c name) i last = i + Z.of_nat (String.length a).
Proof.
  intros Hname. induction a as [|x a IH]; intros i last.
  - rewrite append_nil_l. cbn [rfind_from]. rewrite Ascii.eqb_refl.
    rewrite (rfind_from_absent c name _ _ Hname). cbn [String.length]. lia.
  - rewrite append_cons. cbn [rfind_from String.length]. rewrite IH. lia.
Qed.

Lemma basename_after_sep (a name : string) :
  str_has sep name = false -> os_path.basename (a +:+ String sep name) = name.
Proof.
  intros Hname. unfold os_path.basename, str_drop, rfind.
  rewrite (rfind_from_app_last sep a name Hname).
  replace (Z.to_nat (0 + Z.of_nat (String.length a) + 1))
    with (String.length (a +:+ String sep "")).
  2:{ rewrite length_append. cbn [String.length]. lia. }
  replace (a +:+ String sep name) with ((a +:+ String sep "") +:+ name).
  2:{ clear. induction a as [|x a IH]; [reflexivity|].
      rewrite !append_cons. by rewrite IH. }
  rewrite substring_app_skip, length_append.
  replace (String.length (a +:+ String sep "") + String.length name
           - String.length (a +:+ String sep ""))%nat
    with (String.length name) by lia.
  apply substring_all.
Qed.

Lemma basename_plain (name : string) :
  str_has sep name = false -> os_path.basename name = name.
Proof.
  intros H. unfold os_path.basename, str_drop, rfind.
  rewrite (rfind_from_absent sep name _ _ H). cbn.
  rewrite Nat.sub_0_r. apply substring_all.
Qed.

Lemma endswith_sep_split (s : string) :
  endswith s "/" = true -> exists a, s = a +:+ "/".
Proof.
  induction s as [|c s IH]; cbn [endswith]; intros H.
  - discriminate.
  - apply orb_true_iff in H as [H|H].
    + apply String.eqb_eq in H. exists "". by rewrite H.
    + destruct (IH H) as [a ->]. by exists (String c a).
Qed.

Lemma prefix_sep_has (name : string) :
  str_has sep name = false -> startswith name "/" = false.
Proof.
  intros H. destruct name as [|a r]; [reflexivity|].
  cbn [str_has] in H. apply orb_false_iff in H as [Ha _].
  unfold startswith. cbn [String.prefix].
  destruct (ascii_dec "/" a) as [<-|]; [discriminate|by destruct r].
Qed.

(** *** The code's path functions against the rule of the specification *)

Lemma after_last_sep_rfind (s : string) :
  forall i last : Z,
    match after_last_sep s with
    | None => rfind_from sep s i last = last
    | Some t =>
        exists k : nat,
          rfind_from sep s i last = i + Z.of_nat k /\
          String.substring (S k) (String.length s - S k) s = t
    end.
Proof.
  induction s as [|a r IH]; intros i last; [reflexivity|].
  cbn [after_last_sep rfind_from].
  specialize (IH (i + 1) (if Ascii.eqb a sep then i else last)).
  destruct (after_last_sep r) as [t|].
  - destruct IH as (k & Hk & Ht). exists (S k). split; [lia|exact Ht].
  - unfold sep in *. destruct (Ascii.eqb a "/"); [|exact IH].
    exists 0%nat. split; [lia|]. cbn. rewrite Nat.sub_0_r. apply substring_all.
Qed.

Lemma basename_last_component (p : string) : os_path.basename p = last_component p.
Proof.
  unfold os_path.basename, str_drop, rfind, last_component.
  pose proof (after_last_sep_rfind p 0 (-1)) as H.
  destruct (after_last_sep p) as [t|].
  - destruct H as (k & -> & Ht).
    replace (Z.to_nat (0 + Z.of_nat k + 1)) with (S k) by lia. exact Ht.
  - rewrite H. cbn. rewrite Nat.sub_0_r. apply substring_all.
Qed.

Lemma before_last_dot_rfind (s : string) :
  forall i last : Z,
    match before_last_dot s with
    | None => rfind_from extsep s i last = last
    | Some t =>
        rfind_from extsep s i last = i + Z.of_nat (String.length t) /\
        String.substring 0 (String.length t) s = t
    end.
Proof.
  induction s as [|a r IH]; intros i last; [reflexivity|].
  cbn [before_last_dot rfind_from].
  specialize (IH (i + 1) (if Ascii.eqb a extsep then i else last)).
  destruct (before_last_dot r) as [t|].
  - destruct IH as [Hk Ht]. cbn [String.length String.substring].
    split; [lia | by rewrite Ht].
  - unfold extsep in *. destruct (Ascii.eqb a "."); [|exact IH].
    split; [cbn; lia | reflexivity].
Qed.

Lemma not_only_dots_prefix (t : string) :
  existsb (fun c => negb (Ascii.eqb c extsep)) (list_ascii_of_string t)
  = negb (only_dots t).
Proof.
  induction t as [|c t IH]; [reflexivity|].
  cbn [list_ascii_of_string existsb only_dots]. rewrite IH, negb_andb. reflexivity.
Qed.

Lemma splitext_without_extension (name : string) :
  str_has sep name = false ->
  fst (os_path.splitext name) = without_extension name.
Proof.
  intros Hsep. unfold os_path.splitext, os_path.not_only_dots, without_extension, rfind.
  rewrite (rfind_from_absent sep name 0 (-1) Hsep).
  pose proof (before_last_dot_rfind name 0 (-1)) as H.
  destruct (before_last_dot name) as [t|].
  - destruct H as [-> Ht].
    assert ((-1 <? 0 + Z.of_nat (String.length t))%Z = true) as -> by (apply Z.ltb_lt; lia).
    replace (Z.to_nat (-1 + 1)) with 0%nat by lia.
    replace (Z.to_nat (0 + Z.of_nat (String.length t) - (-1 + 1)))
      with (String.length t) by lia.
    rewrite Ht, not_only_dots_prefix. cbn [andb].
    destruct (only_dots t); cbn [negb fst]; [reflexivity|].
    unfold str_take. replace (Z.to_nat (0 + Z.of_nat (String.length t)))
      with (String.length t) by lia. exact Ht.
  - rewrite H. reflexivity.
Qed.

Lemma substring_0_all (s : string) (n : nat) :
  (String.length s <= n)%nat -> String.substring 0 n s = s.
Proof.
  revert n. induction s as [|c s IH]; intros n Hn; [by destruct n|].
  cbn [String.length] in Hn. destruct n as [|n]; [lia|].
  cbn [String.substring]. rewrite IH by lia. reflexivity.
Qed.

Lemma eqb_length (s t : string) :
  String.length s <> String.length t -> String.eqb s t = false.
Proof. intros H. apply String.eqb_neq. intros ->. by apply H. Qed.

Lemma endswith_short (s suffix : string) :
  (String.length s < String.length suffix)%nat -> endswith s suffix = false.
Proof.
  induction s as [|c s IH]; cbn [endswith String.length]; intros H.
  - rewrite eqb_length; [reflexivity | cbn; lia].
  - rewrite eqb_length, IH; [reflexivity | lia | cbn; lia].
Qed.

(** [endswith] compares the last characters of the text with the suffix. *)
Lemma endswith_substring (s suffix : string) :
  endswith s suffix
  = String.eqb (String.substring (String.length s - String.length suffix)
                  (String.length suffix) s) suffix.
Proof.
  induction s as [|c s IH]; cbn [endswith String.length].
  - rewrite orb_false_r. by destruct (String.length suffix).
  - destruct (decide (String.length suffix <= String.length s)%nat) as [Hle|Hgt].
    + replace (S (String.length s) - String.length suffix)%nat
        with (S (String.length s - String.length suffix)) by lia.
      cbn [String.substring]. rewrite <- IH.
      rewrite eqb_length; [reflexivity | cbn; lia].
    + replace (S (String.length s) - String.length suffix)%nat with 0%nat by lia.
      rewrite substring_0_all by (cbn; lia).
      rewrite (endswith_short s suffix) by lia. apply orb_false_r.
Qed.

Lemma endswith_png (name : string) : endswith name ".png" = has_png_extension name.
Proof. apply endswith_substring. Qed.

(** The code's two-step extension handling is the rule [force_png]. *)
Lemma add_then_force_png (name : string) :
  str_has sep name = false ->
  (let base_name :=
     if negb (str_has extsep name) then name +:+ ".png" else name in
   if negb (endswith base_name ".png")
   then fst (os_path.splitext base_name) +:+ ".png" else base_name)
  = force_png name.
Proof.
  intros Hsep. unfold force_png; cbv zeta. rewrite <- endswith_png.
  rewrite <- (splitext_without_extension name Hsep).
  destruct (str_has extsep name) eqn:Hdot; cbn [negb].
  - by destruct (endswith name ".png").
  - rewrite (endswith_app name ".png" ".png") by reflexivity; cbn [negb].
    destruct (endswith name ".png") eqn:Hend.
    + rewrite (endswith_has extsep name ".png") in Hdot; [discriminate|reflexivity|exact Hend].
    + by rewrite splitext_no_dot.
Qed.

Lemma force_png_endswith (name : string) : endswith (force_png name) ".png" = true.
Proof.
  unfold force_png. rewrite <- endswith_png.
  destruct (endswith name ".png") eqn:E; [exact E|]. by apply endswith_app.
Qed.

Lemma derived_base_name_spec (parsed : ParseResult) (reference : string) :
  (is_http (scheme parsed) = false -> os_path.basename reference <> "") ->
  derived_base_name parsed reference = spec_output_name parsed reference.
Proof.
  intros Hlocal. unfold derived_base_name, spec_output_name.
  destruct (is_http (scheme parsed)).
  - rewrite <- basename_last_component. apply add_then_force_png.
    destruct (String.eqb _ ""); [reflexivity | apply basename_no_sep].
  - specialize (Hlocal eq_refl). rewrite <- basename_last_component.
    apply String.eqb_neq in Hlocal. rewrite Hlocal.
    apply add_then_force_png, basename_no_sep.
Qed.

(** ** Dictionaries *)

Lemma dict_get_set_eq (key : string) (v : json) (d : dict) :
  dict_get key (dict_set key v d) = Some v.
Proof.
  induction d as [|[k x] d IH]; simpl.
  - by rewrite String.eqb_refl.
  - destruct (String.eqb k key) eqn:E; simpl; by rewrite E.
Qed.

Lemma dict_get_set_ne (key key' : string) (v : json) (d : dict) :
  key <> key' -> dict_get key' (dict_set key v d) = dict_get key' d.
Proof.
  intros Hne. induction d as [|[k x] d IH]; simpl.
  - apply String.eqb_neq in Hne. by rewrite Hne.
  - destruct (String.eqb k key) eqn:E; simpl; [|by rewrite IH].
    apply String.eqb_eq in E. subst k.
    apply String.eqb_neq in Hne. by rewrite Hne.
Qed.

(** ** The flag resolver *)

Lemma flags_loop_map (param : list json) (idxs : list nat) (flags : list bool) :
  flags_loop param idxs flags = Ret (flags ++ map (flag_at param) idxs)%list.
Proof.
  revert flags. induction idxs as [|idx rest IH]; intros flags; simpl.
  - by rewrite app_nil_r.
  - unfold flag_at at 1. destruct (idx <? length param)%nat eqn:Hlt.
    + apply Nat.ltb_lt in Hlt. destruct (lookup_lt_is_Some_2 param idx Hlt) as [x Hx].
      rewrite Hx, IH, <- app_assoc. reflexivity.
    + apply Nat.ltb_ge in Hlt. rewrite (lookup_ge_None_2 param idx Hlt).
      rewrite IH, <- app_assoc. reflexivity.
Qed.

Lemma lookup_map_seq {A} (f : nat -> A) (n i : nat) :
  (i < n)%nat -> map f (seq 0 n) !! i = Some (f i).
Proof.
  intros Hi. change (map f (seq 0 n)) with (f <$> seq 0 n).
  rewrite list_lookup_fmap, lookup_seq_lt by done. reflexivity.
Qed.

(** C1: on a list of N image references the resolver returns, for every
    selector value, exactly N flags: all false for an absent selector, the
    flag itself N times for a single boolean, for a list the entry at each
    position inside the list and false beyond it, and all false for any
    other shape.  It never raises. *)
Theorem bool_flags_for_images_total (imgs : list json) (selector : json) :
  exists flags : list bool,
    _bool_flags_for_images (JList imgs) selector = Ret flags /\
    length flags = length imgs /\
    match selector with
    | JNull => flags = replicate (length imgs) false
    | JBool b => flags = replicate (length imgs) b
    | JList l =>
        forall i : nat, (i < length imgs)%nat ->
          (forall b : bool, l !! i = Some (JBool b) -> flags !! i = Some b) /\
          ((length l <= i)%nat -> flags !! i = Some false)
    | _ => flags = replicate (length imgs) false
    end.
Proof.
  unfold _bool_flags_for_images; simpl.
  destruct selector as [|b|z|f|s|l|d];
    try (eexists; split; [reflexivity|]; split; [apply length_replicate|reflexivity]).
  rewrite flags_loop_map; simpl. eexists; split; [reflexivity|].
  split; [by rewrite length_map, length_seq|].
  intros i Hi. rewrite lookup_map_seq by done. unfold flag_at. split.
  - intros b Hb. by rewrite Hb.
  - intros Hge. by rewrite (lookup_ge_None_2 l i Hge).
Qed.

(** C9: a selector list may hold values that are not booleans; every
    position inside both the image list and the selector list receives the
    truthiness of the entry ([0] gives false, [1] and a non-empty string
    give true), so such a selector is not sent to the all-false fallback. *)
Theorem bool_flags_for_images_coerces (imgs l : list json) (i : nat) (x : json) :
  (i < Nat.min (length imgs) (length l))%nat ->
  l !! i = Some x ->
  exists flags : list bool,
    _bool_flags_for_images (JList imgs) (JList l) = Ret flags /\
    flags !! i = Some (truthy x) /\
    truthy (JInt 0) = false /\ truthy (JInt 1) = true /\
    (forall (c : ascii) (s : string), truthy (JStr (String c s)) = true).
Proof.
  intros Hi Hx. unfold _bool_flags_for_images; simpl.
  rewrite flags_loop_map; simpl. eexists; split; [reflexivity|].
  split; [|repeat split].
  rewrite lookup_map_seq by lia. unfold flag_at. by rewrite Hx.
Qed.

Lemma bool_flags_for_images_coerces_witness :
  exists flags : list bool,
    _bool_flags_for_images (JList [JStr "a.png"; JStr "b.png"; JStr "c.png"])
      (JList [JInt 0; JStr "yes"]) = Ret flags /\
    flags !! 1%nat = Some (truthy (JStr "yes")) /\
    truthy (JInt 0) = false /\ truthy (JInt 1) = true /\
    (forall (c : ascii) (s : string), truthy (JStr (String c s)) = true).
Proof.
  apply (bool_flags_for_images_coerces
           [JStr "a.png"; JStr "b.png"; JStr "c.png"] [JInt 0; JStr "yes"] 1 (JStr "yes")).
  - simpl. lia.
  - reflexivity.
Defined.

(** ** Reasoning about jobs *)

Lemma yields_ret {A} (P : A -> Prop) (a : A) : P a -> yields P (ret a).
Proof. intros H σ. exact H. Qed.

Lemma yields_raise {A} (P : A -> Prop) (e : exn) : yields P (raise e).
Proof. intros σ. exact I. Qed.

Lemma yields_bind {A B} (P : B -> Prop) (m : M A) (k : A -> M B) :
  (forall a, yields P (k a)) -> yields P (bind m k).
Proof.
  intros H σ. unfold bind. destruct (m σ) as [[a|e] σ']; [apply H | exact I].
Qed.

Lemma yields_try {A} (P : A -> Prop) (m : M A) (h : exn -> M A) :
  yields P m -> (forall e, yields P (h e)) -> yields P (try_except m h).
Proof.
  intros Hm Hh σ. unfold try_except. specialize (Hm σ).
  destruct (m σ) as [[a|e] σ']; [exact Hm | apply Hh].
Qed.

Lemma always_try {A} (P : A -> Prop) (m : M A) (h : exn -> M A) :
  yields P m -> (forall e, always P (h e)) -> always P (try_except m h).
Proof.
  intros Hm Hh σ. unfold try_except. specialize (Hm σ).
  destruct (m σ) as [[a|e] σ']; [by exists a, σ' | apply Hh].
Qed.

Lemma always_ret {A} (P : A -> Prop) (a : A) : P a -> always P (ret a).
Proof. intros H σ. by exists a, σ. Qed.

Lemma succeeded_wf (payload : string) : result_wf (succeeded payload).
Proof. split; simpl; [eauto | discriminate]. Qed.

Lemma failed_wf (msg : string) : result_wf (failed msg).
Proof. split; simpl; [discriminate | eauto]. Qed.

Create HintDb job.
#[local] Hint Resolve yields_ret yields_raise yields_try always_try always_ret
  succeeded_wf failed_wf : job.

Ltac yields_step :=
  repeat first
    [ apply yields_try; [|intros ?]
    | apply yields_bind; intros ?
    | solve [auto with job] ].

Lemma handle_infer_yields_wf (w : World) (job_input : dict) (job_id : string) :
  yields result_wf (_handle_infer w job_input job_id).
Proof.
  unfold _handle_infer.
  destruct (negb (truthy (get_or "prompt" JNull job_input))
            || negb (truthy (get_or "image_paths" JNull job_input)));
    yields_step.
Qed.

Lemma handle_remove_background_yields_wf (w : World) (job_input : dict) (job_id : string) :
  yields result_wf (_handle_remove_background w job_input job_id).
Proof.
  unfold _handle_remove_background.
  destruct (negb (truthy (get_or "image_path" JNull job_input))); yields_step.
Qed.

Lemma handler_yields_wf (w : World) (event : dict) : yields result_wf (handler w event).
Proof.
  unfold handler.
  destruct (if truthy (get_or "input" JNull event)
            then get_or "input" JNull event else JDict []);
    try apply yields_raise.
  destruct (json_eq_str _ "infer"); [apply handle_infer_yields_wf|].
  destruct (json_eq_str _ "remove_background");
    [apply handle_remove_background_yields_wf | auto with job].
Qed.

(** C4: every result the queue handler returns, and the response of each
    HTTP endpoint (which always answer), has its payload set and no error
    message when [success] is true, and no payload and an error message
    when [success] is false. *)
Theorem terminal_results_exclusive (w : World) :
  (forall (event : dict) (σ : State),
     match fst (handler w event σ) with
     | Ret r => result_wf r
     | Raise _ => True
     end) /\
  (forall (request : InferenceRequest) (σ : State),
     exists r σ', infer w request σ = (Ret r, σ') /\ result_wf r) /\
  (forall (request : BackgroundRemovalRequest) (σ : State),
     exists r σ', remove_bg w request σ = (Ret r, σ') /\ removal_wf r).
Proof.
  split; [|split].
  - intros event. apply handler_yields_wf.
  - intros request. apply always_try; [yields_step | auto with job].
  - intros request. apply always_try.
    + apply yields_bind; intros p. apply yields_ret. split; simpl; [eauto | discriminate].
    + intros e. apply always_ret. split; simpl; [discriminate | eauto].
Qed.

(** ** Validation and dispatch *)

Lemma handle_infer_rejects (w : World) (job_input : dict) (job_id : string) (σ : State) :
  truthy (get_or "prompt" JNull job_input) = false \/
  truthy (get_or "image_paths" JNull job_input) = false ->
  _handle_infer w job_input job_id σ = (Ret (failed infer_required), σ).
Proof.
  intros H. unfold _handle_infer.
  assert (negb (truthy (get_or "prompt" JNull job_input))
          || negb (truthy (get_or "image_paths" JNull job_input)) = true) as ->.
  { destruct H as [-> | ->]; [reflexivity | apply orb_true_r]. }
  reflexivity.
Qed.

Lemma handler_dispatch (w : World) (event job_input : dict) :
  get_or "input" JNull event = JDict job_input ->
  handler w event =
    let job_id := py_str w (get_or "id" (JStr "unknown") event) in
    let task_type := get_or "task_type" (JStr "infer") job_input in
    if json_eq_str task_type "infer" then _handle_infer w job_input job_id
    else if json_eq_str task_type "remove_background"
         then _handle_remove_background w job_input job_id
    else ret (failed ("Unknown task_type: " +:+ py_str w task_type)).
Proof.
  intros H. unfold handler. rewrite H. by destruct job_input.
Qed.

(** C3: a generate job whose prompt or image list is missing or empty is
    answered with [success = false] and a message naming the two required
    fields; the state is exactly the one the job started in, so no file was
    read, no directory made and no model called. *)
Theorem handler_infer_fail_fast (w : World) (event job_input : dict) (σ : State) :
  get_or "input" JNull event = JDict job_input ->
  json_eq_str (get_or "task_type" (JStr "infer") job_input) "infer" = true ->
  truthy (get_or "prompt" JNull job_input) = false \/
  truthy (get_or "image_paths" JNull job_input) = false ->
  handler w event σ =
    (Ret {| success := false; image_base64 := None;
            error_message :=
              Some "Both 'prompt' and 'image_paths' are required for infer task." |},
     σ) /\
  calls (snd (handler w event σ)) = calls σ.
Proof.
  intros Hin Htask Hmissing.
  rewrite (handler_dispatch w event job_input Hin); cbv zeta. rewrite Htask.
  rewrite (handle_infer_rejects w job_input _ σ Hmissing). split; reflexivity.
Qed.

Lemma handler_infer_fail_fast_witness :
  handler sample_world
    [("id", JStr "job-3");
     ("input", JDict [("prompt", JStr ""); ("image_paths", JList [JStr "person.png"])])]
    sample_state =
    (Ret {| success := false; image_base64 := None;
            error_message :=
              Some "Both 'prompt' and 'image_paths' are required for infer task." |},
     sample_state) /\
  calls (snd (handler sample_world
    [("id", JStr "job-3");
     ("input", JDict [("prompt", JStr ""); ("image_paths", JList [JStr "person.png"])])]
    sample_state)) = calls sample_state.
Proof.
  apply (handler_infer_fail_fast sample_world
           [("id", JStr "job-3");
            ("input", JDict [("prompt", JStr ""); ("image_paths", JList [JStr "person.png"])])]
           [("prompt", JStr ""); ("image_paths", JList [JStr "person.png"])]).
  - reflexivity.
  - reflexivity.
  - left. reflexivity.
Defined.

(** C5: a job whose [task_type] is present and is neither ["infer"] nor
    ["remove_background"] is answered, not raised: [success = false], no
    payload, and the message ["Unknown task_type: "] followed by the
    offending value as Python prints it -- a text as it is, [None], [True],
    [False], an integer in decimal, anything else by its [repr] -- so the
    message contains that value. *)
Theorem handler_unknown_task_type (w : World) (event job_input : dict)
    (task_type : json) (σ : State) :
  get_or "input" JNull event = JDict job_input ->
  dict_get "task_type" job_input = Some task_type ->
  task_type <> JStr "infer" ->
  task_type <> JStr "remove_background" ->
  let rendered :=
    match task_type with
    | JStr s => s
    | JNull => "None"
    | JBool true => "True"
    | JBool false => "False"
    | JInt z => pretty z
    | JFloat _ | JList _ | JDict _ => py_repr w task_type
    end in
  handler w event σ =
    (Ret {| success := false; image_base64 := None;
            error_message := Some ("Unknown task_type: " +:+ rendered) |}, σ) /\
  exists pre post : string, "Unknown task_type: " +:+ rendered = pre +:+ rendered +:+ post.
Proof.
  intros Hin Htask Hne1 Hne2 rendered. split.
  - rewrite (handler_dispatch w event job_input Hin); cbv zeta.
    unfold get_or. rewrite Htask.
    assert (forall s, task_type <> JStr s -> json_eq_str task_type s = false) as Hneq.
    { intros s Hs. destruct task_type; try reflexivity. simpl.
      apply String.eqb_neq. congruence. }
    rewrite (Hneq _ Hne1), (Hneq _ Hne2).
    unfold rendered, py_str. by destruct task_type as [|[|]| | | | |].
  - exists "Unknown task_type: ", "". f_equal.
    clear. induction rendered as [|c r IH]; [reflexivity|].
    rewrite append_cons. by rewrite <- IH.
Qed.

Lemma handler_unknown_task_type_witness :
  handler sample_world [("id", JStr "job-9"); ("input", JDict [("task_type", JStr "upscale")])]
    sample_state =
    (Ret {| success := false; image_base64 := None;
            error_message := Some "Unknown task_type: upscale" |}, sample_state) /\
  exists pre post : string, "Unknown task_type: upscale" = pre +:+ "upscale" +:+ post.
Proof.
  apply (handler_unknown_task_type sample_world
           [("id", JStr "job-9"); ("input", JDict [("task_type", JStr "upscale")])]
           [("task_type", JStr "upscale")] (JStr "upscale") sample_state).
  - reflexivity.
  - reflexivity.
  - discriminate.
  - discriminate.
Defined.

Lemma handle_infer_ext (w : World) (d d' : dict) (job_id : string) :
  (forall key : string, key <> "task_type" -> dict_get key d' = dict_get key d) ->
  _handle_infer w d' job_id = _handle_infer w d job_id.
Proof.
  intros H. unfold _handle_infer, get_or.
  rewrite (H "prompt"), (H "image_paths"), (H "height"), (H "width"),
    (H "guidance_scale"), (H "num_inference_steps"), (H "remove_background")
    by discriminate.
  reflexivity.
Qed.

(** C8: an event whose input has no [task_type] gets the very outcome --
    result or exception, and final state -- of the same event with
    [task_type] set to ["infer"]. *)
Theorem handler_task_type_default (w : World) (event job_input : dict) (σ : State) :
  dict_get "input" event = Some (JDict job_input) ->
  dict_get "task_type" job_input = None ->
  handler w event σ =
  handler w
    (dict_set "input" (JDict (dict_set "task_type" (JStr "infer") job_input)) event) σ.
Proof.
  intros Hin Hnone.
  rewrite (handler_dispatch w event job_input) by (unfold get_or; by rewrite Hin).
  rewrite (handler_dispatch w (dict_set "input" _ event)
             (dict_set "task_type" (JStr "infer") job_input))
    by (unfold get_or; by rewrite dict_get_set_eq).
  assert (get_or "task_type" (JStr "infer") job_input = JStr "infer") as ->
    by (unfold get_or; by rewrite Hnone).
  assert (get_or "task_type" (JStr "infer")
            (dict_set "task_type" (JStr "infer") job_input) = JStr "infer") as ->
    by (unfold get_or; by rewrite dict_get_set_eq).
  assert (forall v, get_or "id" (JStr "unknown") (dict_set "input" v event)
                    = get_or "id" (JStr "unknown") event) as ->
    by (intros v; unfold get_or; by rewrite dict_get_set_ne).
  cbv zeta. change (json_eq_str (JStr "infer") "infer") with true. cbv iota.
  rewrite (handle_infer_ext w job_input (dict_set "task_type" (JStr "infer") job_input));
    [reflexivity|].
  intros key Hkey. apply dict_get_set_ne. congruence.
Qed.

Lemma handler_task_type_default_witness :
  handler sample_world
    [("id", JStr "job-8");
     ("input", JDict [("prompt", JStr "a red coat"); ("image_paths", JList [JStr "person.png"])])]
    sample_state =
  handler sample_world
    (dict_set "input"
       (JDict (dict_set "task_type" (JStr "infer")
                 [("prompt", JStr "a red coat"); ("image_paths", JList [JStr "person.png"])]))
       [("id", JStr "job-8");
        ("input", JDict [("prompt", JStr "a red coat");
                         ("image_paths", JList [JStr "person.png"])])])
    sample_state.
Proof.
  apply (handler_task_type_default sample_world
           [("id", JStr "job-8");
            ("input", JDict [("prompt", JStr "a red coat");
                             ("image_paths", JList [JStr "person.png"])])]
           [("prompt", JStr "a red coat"); ("image_paths", JList [JStr "person.png"])]
           sample_state).
  - reflexivity.
  - reflexivity.
Defined.

(** ** Errors before the [try] block *)

(** C2, at a job that passes validation and asks for background removal
    of an image that is not on disk: the loader's exception leaves the
    handler.  Without the removal flag the same missing file is reported by
    the generator's loader inside the [try] block and comes back as a
    failed result. *)
Theorem handle_infer_removal_error_escapes :
  fst (handler sample_world
         [("id", JStr "job-1");
          ("input", JDict [("prompt", JStr "a red coat");
                           ("image_paths", JList [JStr "missing.png"]);
                           ("remove_background", JBool true)])]
         sample_state)
  = Raise missing_file_error /\
  fst (handler sample_world
         [("id", JStr "job-1");
          ("input", JDict [("prompt", JStr "a red coat");
                           ("image_paths", JList [JStr "missing.png"])])]
         sample_state)
  = Ret (failed (exn_text missing_file_error)).
Proof. split; vm_compute; reflexivity. Qed.

(** ** The bound on the number of images *)

(** C7, at a queue job with five images: the job is not rejected; it
    succeeds, and the generator is called with all five images.  The
    request schema of the HTTP surface refuses the same list. *)
Theorem queue_accepts_five_images :
  fst (handler sample_world five_images_job sample_state) = Ret (succeeded "png:2:rgb") /\
  (exists images : list image,
     last (calls (snd (handler sample_world five_images_job sample_state)))
       = Some (CallPipe (JStr "a red coat") images) /\
     length images = 5%nat) /\
  InferenceRequest_valid
    {| prompt := "a red coat";
       image_paths := ["person.png"; "top.jpg"; "person.png"; "top.jpg"; "person.png"];
       height := 1024; width := 1024; guidance_scale := 1%float;
       num_inference_steps := 10 |} = false.
Proof.
  split; [vm_compute; reflexivity|]. split; [|reflexivity].
  eexists. split; [vm_compute; reflexivity | reflexivity].
Qed.

(** ** Successful runs of the collaborators *)

Lemma remove_background_ok (w : World) (reference : string) (output_path : option string)
    (output_dir : string) (σ : State) (parsed : ParseResult) (img out : image) :
  urlparse w reference = Ret parsed ->
  loads w σ parsed reference img ->
  BG_REMOVAL_SESSION σ = true \/ new_session w = Ret tt ->
  rembg_remove w (convert_RGB img) = Ret out ->
  let final :=
    match output_path with
    | Some p => p
    | None => os_path.join output_dir [derived_base_name parsed reference]
    end in
  (output_path = None -> makedirs_error w output_dir = None) ->
  makedirs_error w (parent_dir final) = None ->
  image_save w final out = Saved ->
  exists σ',
    remove_background w reference output_path output_dir σ = (Ret final, σ') /\
    fs σ' = <[final := if endswith final ".png" then out else transcode w final out]> (fs σ) /\
    PIPELINE σ' = PIPELINE σ.
Proof.
  intros Hparse Hload Hsession Hrembg final Hdir Hparent Hsave.
  unfold remove_background, loads, parent_dir in *.
  unfold Image_open, _get_session, makedirs, Image_save, bind, lift, log, ret, raise,
    write_file, set_session.
  rewrite Hparse.
  destruct (is_http (scheme parsed)); cbn -[os_path.join os_path.dirname endswith];
    rewrite Hload; cbn -[os_path.join os_path.dirname endswith].
  all: destruct (BG_REMOVAL_SESSION σ) eqn:Hb;
    [|destruct Hsession as [Hs | Hs]; [discriminate | rewrite Hs]];
    cbn -[os_path.join os_path.dirname endswith];
    rewrite Hrembg; cbn -[os_path.join os_path.dirname endswith].
  all: destruct output_path as [p|]; subst final;
    [|rewrite (Hdir eq_refl)]; cbn -[os_path.join os_path.dirname endswith];
    rewrite Hparent; cbn -[os_path.join os_path.dirname endswith];
    rewrite Hsave; cbn -[os_path.join os_path.dirname endswith];
    eexists; (split; [reflexivity|split; reflexivity]).
Qed.

Lemma bind_ok {A B} (m : M A) (k : A -> M B) (σ σ' : State) (a : A) :
  m σ = (Ret a, σ') -> bind m k σ = k a σ'.
Proof. intros H. unfold bind. by rewrite H. Qed.

Lemma try_ok {A} (m : M A) (h : exn -> M A) (σ σ' : State) (a : A) :
  m σ = (Ret a, σ') -> try_except m h σ = (Ret a, σ').
Proof. intros H. unfold try_except. by rewrite H. Qed.

Lemma makedirs_ok (w : World) (p : string) (σ : State) :
  makedirs_error w p = None -> makedirs w p σ = (Ret tt, with_call (CallMakedirs p) σ).
Proof. intros H. unfold makedirs, bind, log. by rewrite H. Qed.

Lemma Image_open_ok (w : World) (p : string) (img : image) (σ : State) :
  fs σ !! p = Some img -> Image_open w p σ = (Ret img, with_call (CallImageOpen p) σ).
Proof. intros H. unfold Image_open, bind, log; simpl. by rewrite H. Qed.

Lemma join_endswith (dir name suffix : string) :
  endswith name suffix = true -> endswith (os_path.join dir [name]) suffix = true.
Proof.
  intros H. unfold os_path.join, os_path.join_step; cbn [fold_left].
  destruct (startswith name "/"); [exact H|].
  destruct (String.eqb dir "" || endswith dir "/"); repeat apply endswith_app; exact H.
Qed.

(** ** Output naming of the background remover *)

Lemma endswith_split (s suffix : string) :
  endswith s suffix = true -> exists a, s = a +:+ suffix.
Proof.
  induction s as [|c s IH]; cbn [endswith]; intros H.
  - rewrite orb_false_r in H. apply String.eqb_eq in H. subst suffix. by exists "".
  - apply orb_true_iff in H as [H|H].
    + apply String.eqb_eq in H. subst suffix. by exists "".
    + destruct (IH H) as [a ->]. by exists (String c a).
Qed.

(** C6: with no explicit output location, a run on a reference that
    [urlparse] accepts and whose collaborators all succeed saves under
    [output_dir] joined with a name that is a function of the reference
    alone: the last component of the reference (of the URL's path for a
    URL), ["image"] when that is empty, and the extension forced to
    [".png"] whatever it was.  The name does not depend on the state, so
    the same reference always gets the same name. *)
Theorem remove_background_derived_path (w : World) (reference output_dir : string)
    (σ : State) (parsed : ParseResult) (img out : image) :
  posix_files σ ->
  urlparse w reference = Ret parsed ->
  loads w σ parsed reference img ->
  BG_REMOVAL_SESSION σ = true \/ new_session w = Ret tt ->
  rembg_remove w (convert_RGB img) = Ret out ->
  let name := spec_output_name parsed reference in
  let final := os_path.join output_dir [name] in
  makedirs_error w output_dir = None ->
  makedirs_error w (parent_dir final) = None ->
  image_save w final out = Saved ->
  (exists stem, name = stem +:+ ".png") /\
  exists σ',
    remove_background w reference None output_dir σ = (Ret final, σ') /\
    fs σ' = <[final := out]> (fs σ).
Proof.
  intros Hposix Hparse Hload Hs Hrembg name final Hmk Hparent Hsave.
  assert (derived_base_name parsed reference = name) as Hname.
  { apply derived_base_name_spec. intros Hlocal.
    rewrite basename_last_component. apply Hposix.
    unfold loads in Hload. rewrite Hlocal in Hload. eauto. }
  assert (endswith name ".png" = true) as Hpng by apply force_png_endswith.
  split; [by apply endswith_split|].
  destruct (remove_background_ok w reference None output_dir σ parsed img out
              Hparse Hload Hs Hrembg)
    as (σ' & Hrun & Hfs & _); cbv zeta; rewrite ?Hname; auto.
  rewrite Hname in Hrun, Hfs. fold final in Hrun, Hfs.
  exists σ'. split; [exact Hrun|].
  rewrite Hfs. unfold final. by rewrite (join_endswith output_dir name ".png" Hpng).
Qed.

Lemma sample_state_posix : posix_files sample_state.
Proof.
  intros p [img Hp]. unfold sample_state in Hp; simpl in Hp.
  apply lookup_insert_Some in Hp as [[<- _] | [_ Hp]]; [vm_compute; discriminate|].
  apply lookup_singleton_Some in Hp as [<- _]. vm_compute; discriminate.
Qed.

Lemma wardrobe_state_posix : posix_files wardrobe_state.
Proof.
  intros p [img Hp]. unfold wardrobe_state in Hp; simpl in Hp.
  apply lookup_insert_Some in Hp as [[<- _] | [_ Hp]]; [vm_compute; discriminate|].
  apply lookup_singleton_Some in Hp as [<- _]. vm_compute; discriminate.
Qed.

Lemma remove_background_derived_path_witness :
  ((exists stem, "coat.png" = stem +:+ ".png") /\
   exists σ',
     remove_background sample_world "looks/coat.JPG" None "outputs/bg_removed"
       wardrobe_state
     = (Ret "outputs/bg_removed/coat.png", σ') /\
     fs σ' = <["outputs/bg_removed/coat.png" := sample_cutout sample_person]>
               (fs wardrobe_state)) /\
  ((exists stem, "scan.png" = stem +:+ ".png") /\
   exists σ',
     remove_background sample_world "looks/scan" None "out/" wardrobe_state
     = (Ret "out/scan.png", σ') /\
     fs σ' = <["out/scan.png" := sample_cutout sample_person]> (fs wardrobe_state)) /\
  ((exists stem, "image.png" = stem +:+ ".png") /\
   exists σ',
     remove_background sample_world "https://cdn.example/" None "outputs/bg_removed"
       sample_state
     = (Ret "outputs/bg_removed/image.png", σ') /\
     fs σ' = <["outputs/bg_removed/image.png" := sample_cutout sample_person]>
               (fs sample_state)).
Proof.
  split; [|split].
  - apply (remove_background_derived_path sample_world "looks/coat.JPG"
             "outputs/bg_removed" wardrobe_state (sample_urlparse "looks/coat.JPG")
             sample_person (sample_cutout sample_person)).
    + exact wardrobe_state_posix.
    + reflexivity.
    + reflexivity.
    + left. reflexivity.
    + reflexivity.
    + reflexivity.
    + reflexivity.
    + reflexivity.
  - apply (remove_background_derived_path sample_world "looks/scan" "out/"
             wardrobe_state (sample_urlparse "looks/scan")
             sample_person (sample_cutout sample_person)).
    + exact wardrobe_state_posix.
    + reflexivity.
    + reflexivity.
    + left. reflexivity.
    + reflexivity.
    + reflexivity.
    + reflexivity.
    + reflexivity.
  - apply (remove_background_derived_path sample_world "https://cdn.example/"
             "outputs/bg_removed" sample_state (sample_urlparse "https://cdn.example/")
             sample_person (sample_cutout sample_person)).
    + exact sample_state_posix.
    + reflexivity.
    + reflexivity.
    + right. reflexivity.
    + reflexivity.
    + reflexivity.
    + reflexivity.
    + reflexivity.
Defined.

(** ** The payload of a background-removal job *)

Lemma encode_image_file_ok (w : World) (p : string) (img : image) (σ : State) :
  fs σ !! p = Some img ->
  _encode_image_file_to_base64 w p σ
  = (Ret (png_base64 w (convert_RGB img)), with_call (CallImageOpen p) σ).
Proof.
  intros H. unfold _encode_image_file_to_base64.
  by rewrite (bind_ok _ _ _ _ _ (Image_open_ok w p img σ H)).
Qed.

(** C10: a queue [remove_background] job on a reference that [urlparse]
    accepts and whose collaborators all succeed
    returns, as [image_base64], the PNG and base64 encoding of the saved
    file re-opened and converted to RGB: the colour planes of the
    segmentation output without its alpha plane.  The file the job leaves
    at [removed.png] is the segmentation output itself, alpha included. *)
Theorem handler_remove_background_payload (w : World) (event job_input : dict)
    (reference : string) (σ : State) (parsed : ParseResult) (img out : image) :
  get_or "input" JNull event = JDict job_input ->
  dict_get "task_type" job_input = Some (JStr "remove_background") ->
  dict_get "image_path" job_input = Some (JStr reference) ->
  reference <> "" ->
  let job_id := py_str w (get_or "id" (JStr "unknown") event) in
  let tmp_dir := os_path.join "/tmp" ["bg_removed"; job_id] in
  let output_path := os_path.join tmp_dir ["removed.png"] in
  makedirs_error w tmp_dir = None ->
  makedirs_error w (parent_dir output_path) = None ->
  urlparse w reference = Ret parsed ->
  loads w σ parsed reference img ->
  BG_REMOVAL_SESSION σ = true \/ new_session w = Ret tt ->
  rembg_remove w (convert_RGB img) = Ret out ->
  image_save w output_path out = Saved ->
  exists σ',
    handler w event σ =
      (Ret {| success := true;
              image_base64 := Some (png_base64 w (convert_RGB out));
              error_message := None |}, σ') /\
    img_rgb (convert_RGB out) = img_rgb out /\
    img_alpha (convert_RGB out) = None /\
    fs σ' !! output_path = Some out.
Proof.
  intros Hin Htask Hpath Hne job_id tmp_dir output_path Hmk Hparent Hparse Hload Hs
    Hrembg Hsave.
  rewrite (handler_dispatch w event job_input Hin); cbv zeta.
  assert (get_or "task_type" (JStr "infer") job_input = JStr "remove_background") as ->
    by (unfold get_or; by rewrite Htask).
  change (json_eq_str (JStr "remove_background") "infer") with false.
  change (json_eq_str (JStr "remove_background") "remove_background") with true.
  cbv iota. unfold _handle_remove_background.
  assert (get_or "image_path" JNull job_input = JStr reference) as ->
    by (unfold get_or; by rewrite Hpath).
  assert (negb (truthy (JStr reference)) = false) as ->.
  { simpl. apply String.eqb_neq in Hne. by rewrite Hne. }
  fold job_id. fold tmp_dir. fold output_path.
  rewrite (bind_ok _ _ _ _ _ (makedirs_ok w tmp_dir σ Hmk)).
  destruct (remove_background_ok w reference (Some output_path) default_output_dir
              (with_call (CallMakedirs tmp_dir) σ) parsed img out Hparse Hload Hs Hrembg)
    as (σ2 & Hrun & Hfs & _); cbv zeta; auto; [discriminate|].
  assert (endswith output_path ".png" = true) as Hpng
    by (apply join_endswith; reflexivity).
  rewrite Hpng in Hfs.
  assert (fs σ2 !! output_path = Some out) as Hfile
    by (rewrite Hfs; apply lookup_insert_eq).
  exists (with_call (CallImageOpen output_path) σ2).
  split; [|repeat split; exact Hfile].
  apply try_ok.
  rewrite (bind_ok _ _ (with_call (CallMakedirs tmp_dir) σ) _ reference) by reflexivity.
  rewrite (bind_ok _ _ _ _ _ Hrun).
  rewrite (bind_ok _ _ _ _ _ (encode_image_file_ok w output_path out σ2 Hfile)).
  reflexivity.
Qed.

Lemma handler_remove_background_payload_witness :
  exists σ',
    handler sample_world remove_background_job sample_state =
      (Ret {| success := true;
              image_base64 := Some (png_base64 sample_world
                                      (convert_RGB (sample_cutout sample_person)));
              error_message := None |}, σ') /\
    img_rgb (convert_RGB (sample_cutout sample_person)) = img_rgb (sample_cutout sample_person) /\
    img_alpha (convert_RGB (sample_cutout sample_person)) = None /\
    fs σ' !! "/tmp/bg_removed/7/removed.png" = Some (sample_cutout sample_person).
Proof.
  apply (handler_remove_background_payload sample_world remove_background_job
           [("task_type", JStr "remove_background"); ("image_path", JStr "person.png")]
           "person.png" sample_state (sample_urlparse "person.png")
           sample_person (sample_cutout sample_person)).
  - reflexivity.
  - reflexivity.
  - reflexivity.
  - discriminate.
  - reflexivity.
  - reflexivity.
  - reflexivity.
  - reflexivity.
  - right. reflexivity.
  - reflexivity.
  - reflexivity.
Defined.

(** ** Jobs with no selector *)

Lemma preprocess_loop_no_flags (w : World) (tmp_dir : string) (n : nat)
    (items : list json) :
  forall (idx : nat) (acc : list json) (σ : State),
    (idx + length items <= n)%nat ->
    preprocess_loop w tmp_dir (replicate n false) idx items acc σ
    = (Ret (acc ++ items)%list, σ).
Proof.
  induction items as [|p rest IH]; intros idx acc σ Hn; cbn [preprocess_loop].
  - by rewrite app_nil_r.
  - cbn [length] in Hn. rewrite lookup_replicate_2 by lia.
    rewrite IH by lia. by rewrite <- app_assoc.
Qed.

Lemma load_pipeline_ok (w : World) (σ : State) :
  PIPELINE σ = true \/ (from_pretrained w = Ret tt /\ to_device w = Ret tt) ->
  exists σ', _load_pipeline w σ = (Ret tt, σ') /\ fs σ' = fs σ.
Proof.
  intros H. unfold _load_pipeline, bind, lift, log, set_pipeline, ret; simpl.
  destruct (PIPELINE σ) eqn:Hp; [by exists σ|].
  destruct H as [H|[H H']]; [discriminate|]. rewrite H; simpl. rewrite H'.
  eexists; split; reflexivity.
Qed.

(** * Further properties of the code *)

(** ** Equivalent selectors *)

Lemma bool_flags_list (imgs l : list json) :
  _bool_flags_for_images (JList imgs) (JList l)
  = Ret (map (flag_at l) (seq 0 (length imgs))).
Proof. unfold _bool_flags_for_images; simpl. by rewrite flags_loop_map. Qed.

Lemma map_flag_at_ext (l l' : list json) (n : nat) :
  (forall i, (i < n)%nat -> flag_at l i = flag_at l' i) ->
  map (flag_at l) (seq 0 n) = map (flag_at l') (seq 0 n).
Proof.
  intros H. apply map_ext_in. intros i Hi. apply in_seq in Hi. apply H. lia.
Qed.

(** The shapes of the selector overlap: a single flag is the list that
    repeats it for every image, entries of a list beyond the last image are
    ignored, trailing false entries may be dropped or added, and an absent
    selector is the empty list. *)
Theorem bool_flags_selector_equivalences (imgs l : list json) (b : bool) (k : nat) :
  _bool_flags_for_images (JList imgs) (JBool b)
    = _bool_flags_for_images (JList imgs) (JList (replicate (length imgs) (JBool b))) /\
  _bool_flags_for_images (JList imgs) (JList l)
    = _bool_flags_for_images (JList imgs) (JList (take (length imgs) l)) /\
  _bool_flags_for_images (JList imgs) (JList l)
    = _bool_flags_for_images (JList imgs) (JList (l ++ replicate k (JBool false))) /\
  _bool_flags_for_images (JList imgs) JNull
    = _bool_flags_for_images (JList imgs) (JList []).
Proof.
  rewrite !bool_flags_list. unfold _bool_flags_for_images; simpl.
  repeat split; f_equal.
  - apply list_eq. intros i. destruct (decide (i < length imgs)%nat) as [Hi|Hi].
    + rewrite lookup_replicate_2, lookup_map_seq by done.
      unfold flag_at. by rewrite lookup_replicate_2.
    + rewrite !lookup_ge_None_2; [done|rewrite length_map, length_seq; lia|
        rewrite length_replicate; lia].
  - apply map_flag_at_ext. intros i Hi. unfold flag_at. by rewrite lookup_take_lt.
  - apply map_flag_at_ext. intros i Hi. unfold flag_at.
    destruct (decide (i < length l)%nat) as [Hl|Hl].
    + by rewrite lookup_app_l.
    + rewrite lookup_app_r, (lookup_ge_None_2 l) by lia.
      destruct (replicate k (JBool false) !! (i - length l)%nat) as [x|] eqn:E; [|done].
      apply lookup_replicate in E as [-> _]. reflexivity.
  - apply list_eq. intros i. destruct (decide (i < length imgs)%nat) as [Hi|Hi].
    + rewrite lookup_replicate_2, lookup_map_seq by done. reflexivity.
    + rewrite !lookup_ge_None_2; [done|rewrite length_map, length_seq; lia|
        rewrite length_replicate; lia].
Qed.

(** ** The derived file name *)

(** Whatever the reference, the name chosen for the output ends in
    [".png"] and holds no path separator, so the output path keeps
    [output_dir] as it is and its basename is the chosen name: the file is
    placed directly inside [output_dir]. *)
Theorem derived_path_inside_output_dir (parsed : ParseResult)
    (reference output_dir : string) :
  let name := derived_base_name parsed reference in
  let final := os_path.join output_dir [name] in
  endswith name ".png" = true /\
  str_has sep name = false /\
  os_path.basename final = name /\
  (final = output_dir +:+ name \/ final = output_dir +:+ "/" +:+ name).
Proof.
  cbv zeta.
  pose proof (derived_base_name_no_sep parsed reference) as Hsep.
  pose proof (derived_base_name_endswith parsed reference) as Hpng.
  set (name := derived_base_name parsed reference) in *.
  split; [exact Hpng|]. split; [exact Hsep|].
  unfold os_path.join, os_path.join_step; cbn [fold_left].
  rewrite (prefix_sep_has name Hsep).
  destruct (String.eqb output_dir "") eqn:Hempty; cbn [orb].
  - apply String.eqb_eq in Hempty. subst output_dir. rewrite append_nil_l.
    split; [by apply basename_plain | by left].
  - destruct (endswith output_dir "/") eqn:Hslash.
    + split; [|by left]. destruct (endswith_sep_split _ Hslash) as [a ->].
      replace ((a +:+ "/") +:+ name) with (a +:+ String sep name).
      * by apply basename_after_sep.
      * clear. induction a as [|x a IH]; [reflexivity|].
        rewrite !append_cons. by rewrite IH.
    + split; [|by right]. by apply (basename_after_sep output_dir name).
Qed.

(** ** What a run does to the state *)

Section Keeps.
Context (R : State -> State -> Prop) `{!PreOrder R}.

Lemma keeps_ret {A} (a : A) : keeps R (ret a).
Proof. intros σ. reflexivity. Qed.

Lemma keeps_raise {A} (e : exn) : keeps R (@raise A e).
Proof. intros σ. reflexivity. Qed.

Lemma keeps_lift {A} (o : outcome A) : keeps R (lift o).
Proof. intros σ. reflexivity. Qed.

Lemma keeps_read : keeps R (fun σ => (Ret σ, σ)).
Proof. intros σ. reflexivity. Qed.

Lemma keeps_bind {A B} (m : M A) (k : A -> M B) :
  keeps R m -> (forall a, keeps R (k a)) -> keeps R (bind m k).
Proof.
  intros Hm Hk σ. specialize (Hm σ). unfold bind.
  destruct (m σ) as [[a|e] σ']; simpl in *; [|exact Hm].
  etrans; [exact Hm | apply Hk].
Qed.

Lemma keeps_try {A} (m : M A) (h : exn -> M A) :
  keeps R m -> (forall e, keeps R (h e)) -> keeps R (try_except m h).
Proof.
  intros Hm Hh σ. specialize (Hm σ). unfold try_except.
  destruct (m σ) as [[a|e] σ']; simpl in *; [exact Hm|].
  etrans; [exact Hm | apply Hh].
Qed.

End Keeps.

#[local] Instance same_files_preorder : PreOrder same_files.
Proof. split; [by intros σ | intros σ1 σ2 σ3 H1 H2; unfold same_files in *; congruence]. Qed.

#[local] Instance handles_kept_preorder : PreOrder handles_kept.
Proof.
  split; [by intros σ | intros σ1 σ2 σ3 [H1 H1'] [H2 H2']; split; auto].
Qed.

Lemma log_same_files (c : call) : keeps same_files (log c).
Proof. by intros σ. Qed.

Lemma set_session_same_files : keeps same_files set_session.
Proof. by intros σ. Qed.

Lemma set_pipeline_same_files : keeps same_files set_pipeline.
Proof. by intros σ. Qed.

Lemma log_handles (c : call) : keeps handles_kept (log c).
Proof. by intros σ. Qed.

Lemma write_file_handles (p : string) (img : image) : keeps handles_kept (write_file p img).
Proof. by intros σ. Qed.

Lemma remove_file_handles (p : string) : keeps handles_kept (remove_file p).
Proof. by intros σ. Qed.

Lemma set_session_handles : keeps handles_kept set_session.
Proof. by intros σ. Qed.

Lemma set_pipeline_handles : keeps handles_kept set_pipeline.
Proof. by intros σ. Qed.

(** One step of a proof that a computation keeps a relation: through the
    monad's combinators, the state primitives and case distinctions. *)
Ltac keeps_step :=
  match goal with
  | |- PreOrder _ => apply _
  | |- forall _, keeps _ _ => intros ?; cbv beta
  | |- keeps _ (match ?x with _ => _ end) => destruct x
  | |- keeps _ (let _ := _ in _) => cbv zeta
  | |- keeps _ (bind _ _) => apply keeps_bind
  | |- keeps _ (try_except _ _) => apply keeps_try
  | |- keeps _ (ret _) => apply keeps_ret
  | |- keeps _ (raise _) => apply keeps_raise
  | |- keeps _ (lift _) => apply keeps_lift
  | |- keeps _ (fun σ => (Ret σ, σ)) => apply keeps_read
  | |- keeps same_files (log _) => apply log_same_files
  | |- keeps same_files set_session => apply set_session_same_files
  | |- keeps same_files set_pipeline => apply set_pipeline_same_files
  | |- keeps handles_kept (log _) => apply log_handles
  | |- keeps handles_kept (write_file _ _) => apply write_file_handles
  | |- keeps handles_kept (remove_file _) => apply remove_file_handles
  | |- keeps handles_kept set_session => apply set_session_handles
  | |- keeps handles_kept set_pipeline => apply set_pipeline_handles
  | H : context [keeps] |- keeps _ _ => apply H
  end.

Ltac keeps_auto := repeat keeps_step.

Lemma load_images_same_files (w : World) (image_paths : list json) :
  forall images, keeps same_files (load_images w image_paths images).
Proof.
  induction image_paths as [|p rest IH]; intros images; cbn [load_images].
  - keeps_auto.
  - unfold as_reference, _load_image, Image_open. keeps_auto.
Qed.

Lemma run_inference_same_files (w : World) (prompt : json) (image_paths : list json)
    (height width : Z) (guidance_scale : float) (num_inference_steps : Z) :
  keeps same_files
    (run_inference w prompt image_paths height width guidance_scale num_inference_steps).
Proof.
  unfold run_inference, _load_pipeline. keeps_auto. apply load_images_same_files.
Qed.

(** Generation reads files and never writes one: after [run_inference],
    and after [POST /infer], the files are those the run started with,
    whether it succeeded or failed. *)
Theorem inference_writes_no_file (w : World) :
  (forall prompt image_paths height width guidance_scale num_inference_steps σ,
     fs (snd (run_inference w prompt image_paths height width guidance_scale
                num_inference_steps σ)) = fs σ) /\
  (forall request σ, fs (snd (infer w request σ)) = fs σ).
Proof.
  split.
  - intros prompt image_paths height width guidance_scale num_inference_steps σ.
    exact (run_inference_same_files w prompt image_paths height width guidance_scale
             num_inference_steps σ).
  - intros request.
    assert (keeps same_files (infer w request)) as H; [|exact H].
    unfold infer. keeps_auto. apply run_inference_same_files.
Qed.

Lemma remove_background_handles (w : World) (reference : string)
    (output_path : option string) (output_dir : string) :
  keeps handles_kept (remove_background w reference output_path output_dir).
Proof.
  unfold remove_background, Image_open, _get_session, makedirs, Image_save.
  keeps_auto.
Qed.

Lemma load_images_handles (w : World) (image_paths : list json) :
  forall images, keeps handles_kept (load_images w image_paths images).
Proof.
  induction image_paths as [|p rest IH]; intros images; cbn [load_images].
  - keeps_auto.
  - unfold as_reference, _load_image, Image_open. keeps_auto.
Qed.

Lemma run_inference_handles (w : World) (prompt : json) (image_paths : list json)
    (height width : Z) (guidance_scale : float) (num_inference_steps : Z) :
  keeps handles_kept
    (run_inference w prompt image_paths height width guidance_scale num_inference_steps).
Proof.
  unfold run_inference, _load_pipeline. keeps_auto. apply load_images_handles.
Qed.

Lemma preprocess_loop_handles (w : World) (tmp_dir : string) (flags : list bool)
    (items : list json) :
  forall idx processed_paths,
    keeps handles_kept (preprocess_loop w tmp_dir flags idx items processed_paths).
Proof.
  induction items as [|p rest IH]; intros idx acc; cbn [preprocess_loop].
  - keeps_auto.
  - destruct (flags !! idx) as [[|]|]; [|apply IH|keeps_auto].
    unfold as_reference. keeps_auto. apply remove_background_handles.
Qed.

Lemma handler_handles (w : World) (event : dict) : keeps handles_kept (handler w event).
Proof.
  unfold handler, _handle_infer, _handle_remove_background,
    _encode_image_file_to_base64, Image_open, makedirs, as_reference.
  keeps_auto;
    first [ apply remove_background_handles | apply run_inference_handles
          | apply preprocess_loop_handles ].
Qed.

(** The two lazily created model handles are never dropped: once the
    segmentation session or the pipeline is set, it is still set after any
    queue job and any HTTP request, failed ones included. *)
Theorem model_handles_never_dropped (w : World) :
  (forall event σ, handles_kept σ (snd (handler w event σ))) /\
  (forall request σ, handles_kept σ (snd (infer w request σ))) /\
  (forall request σ, handles_kept σ (snd (remove_bg w request σ))).
Proof.
  split; [|split].
  - intros event. apply handler_handles.
  - intros request.
    assert (keeps handles_kept (infer w request)) as H; [|exact H].
    unfold infer. keeps_auto. apply run_inference_handles.
  - intros request.
    assert (keeps handles_kept (remove_bg w request)) as H; [|exact H].
    unfold remove_bg. keeps_auto. apply remove_background_handles.
Qed.

(** Case analysis on the innermost scrutinee of the goal. *)
Ltac destruct_inner :=
  match goal with
  | |- context [match ?x with _ => _ end] =>
      lazymatch x with
      | context [match _ with _ => _ end] => fail
      | _ => destruct x eqn:?
      end
  end.

Lemma remove_background_effect (w : World) (reference : string)
    (output_path : option string) (output_dir : string) (σ : State) :
  let target parsed :=
    match output_path with
    | Some q => q
    | None => os_path.join output_dir [derived_base_name parsed reference]
    end in
  match remove_background w reference output_path output_dir σ with
  | (Raise _, σ') =>
      fs σ' = fs σ \/
      exists parsed, urlparse w reference = Ret parsed /\
                     fs σ' = delete (target parsed) (fs σ)
  | (Ret p, σ') =>
      (exists parsed, urlparse w reference = Ret parsed /\ p = target parsed) /\
      exists img, fs σ' = <[p := img]> (fs σ)
  end.
Proof.
  cbv zeta.
  unfold remove_background, Image_open, _get_session, makedirs, Image_save, bind, lift,
    log, ret, raise, write_file, remove_file, set_session, with_call.
  repeat (destruct_inner; cbn -[os_path.join os_path.dirname endswith derived_base_name]);
    first
      [ left; reflexivity
      | right; eexists; split; [reflexivity|reflexivity]
      | split; [eexists; split; reflexivity | eexists; reflexivity] ].
Qed.

(** Background removal touches one path at most: when [remove_background]
    returns, the files differ from those before in the one file at the
    returned path, which is the [output_path] it was given when there was
    one; when it raises, either no file changed, or the save failed after
    it had opened its target, and the only change is that the target -- the
    given [output_path] when there was one -- holds no image any more. *)
Theorem remove_background_writes_one_file (w : World) (reference : string)
    (output_path : option string) (output_dir : string) (σ : State) :
  match fst (remove_background w reference output_path output_dir σ) with
  | Raise _ =>
      fs (snd (remove_background w reference output_path output_dir σ)) = fs σ \/
      exists p,
        (forall q, output_path = Some q -> p = q) /\
        fs (snd (remove_background w reference output_path output_dir σ))
        = delete p (fs σ)
  | Ret p =>
      (forall q, output_path = Some q -> p = q) /\
      exists img,
        fs (snd (remove_background w reference output_path output_dir σ))
        = <[p := img]> (fs σ)
  end.
Proof.
  pose proof (remove_background_effect w reference output_path output_dir σ) as H.
  cbv zeta in H.
  destruct (remove_background w reference output_path output_dir σ) as [[p|e] σ'];
    cbn [fst snd].
  - destruct H as [(parsed & _ & Hp) Himg]. split; [|exact Himg].
    intros q ->. exact Hp.
  - destruct H as [H|(parsed & _ & H)]; [by left|].
    right. eexists. split; [|exact H]. by intros q ->.
Qed.

(** ** Lazily created model handles *)

(** The pipeline is loaded at most once: when the handle is set,
    [_load_pipeline] calls nothing and changes nothing.  A failed
    [from_pretrained] leaves the handle unset, so the next job tries again;
    but the handle is assigned before the move to the device, so when only
    [.to(device)] fails the handle stays set and the next call returns it
    without repeating the move. *)
Theorem load_pipeline_once (w : World) (σ : State) :
  (PIPELINE σ = true -> _load_pipeline w σ = (Ret tt, σ)) /\
  (forall e, PIPELINE σ = false -> from_pretrained w = Raise e ->
     exists σ', _load_pipeline w σ = (Raise e, σ') /\ PIPELINE σ' = false) /\
  (forall e, PIPELINE σ = false -> from_pretrained w = Ret tt -> to_device w = Raise e ->
     exists σ', _load_pipeline w σ = (Raise e, σ') /\ PIPELINE σ' = true /\
                _load_pipeline w σ' = (Ret tt, σ')).
Proof.
  unfold _load_pipeline, bind, lift, log, ret, set_pipeline, with_call.
  split; [|split].
  - intros H. by rewrite H.
  - intros e H Hload. rewrite H, Hload. by eexists.
  - intros e H Hload Hmove. rewrite H, Hload; cbn. rewrite Hmove.
    eexists. split; [reflexivity|]. split; reflexivity.
Qed.

(** The segmentation session likewise: created on the first use, reused
    afterwards without a call, and left unset when its creation fails. *)
Theorem get_session_once (w : World) (σ : State) :
  (BG_REMOVAL_SESSION σ = true -> _get_session w σ = (Ret tt, σ)) /\
  (BG_REMOVAL_SESSION σ = false -> new_session w = Ret tt ->
     exists σ', _get_session w σ = (Ret tt, σ') /\ BG_REMOVAL_SESSION σ' = true /\
                new_calls σ σ' = [CallNewSession] /\
                _get_session w σ' = (Ret tt, σ')) /\
  (forall e, BG_REMOVAL_SESSION σ = false -> new_session w = Raise e ->
     exists σ', _get_session w σ = (Raise e, σ') /\ BG_REMOVAL_SESSION σ' = false).
Proof.
  unfold _get_session, bind, lift, log, ret, set_session, with_call, new_calls.
  split; [|split].
  - intros H. by rewrite H.
  - intros H Hnew. rewrite H, Hnew; cbn.
    eexists. split; [reflexivity|]. cbn. split; [reflexivity|].
    split; [|reflexivity]. by rewrite drop_app_length.
  - intros e H Hnew. rewrite H, Hnew. by eexists.
Qed.

(** ** Background-removal jobs on the queue *)

Lemma remove_background_task (w : World) (event job_input : dict) :
  get_or "input" JNull event = JDict job_input ->
  dict_get "task_type" job_input = Some (JStr "remove_background") ->
  handler w event =
    _handle_remove_background w job_input (py_str w (get_or "id" (JStr "unknown") event)).
Proof.
  intros Hin Htask. rewrite (handler_dispatch w event job_input Hin); cbv zeta.
  assert (get_or "task_type" (JStr "infer") job_input = JStr "remove_background") as ->
    by (unfold get_or; by rewrite Htask).
  reflexivity.
Qed.

(** A background-removal job with no [image_path], or an empty or null
    one, is answered with a failed result naming the field; nothing is
    called and the state is unchanged. *)
Theorem handler_remove_background_fail_fast (w : World) (event job_input : dict)
    (σ : State) :
  get_or "input" JNull event = JDict job_input ->
  dict_get "task_type" job_input = Some (JStr "remove_background") ->
  truthy (get_or "image_path" JNull job_input) = false ->
  handler w event σ =
    (Ret {| success := false; image_base64 := None;
            error_message :=
              Some "'image_path' is required for remove_background task." |}, σ).
Proof.
  intros Hin Htask Hmissing. rewrite (remove_background_task w event job_input Hin Htask).
  unfold _handle_remove_background. by rewrite Hmissing.
Qed.

Lemma handler_remove_background_fail_fast_witness :
  handler sample_world
    [("id", JStr "job-2"); ("input", JDict [("task_type", JStr "remove_background")])]
    sample_state =
    (Ret {| success := false; image_base64 := None;
            error_message :=
              Some "'image_path' is required for remove_background task." |},
     sample_state).
Proof.
  apply (handler_remove_background_fail_fast sample_world
           [("id", JStr "job-2"); ("input", JDict [("task_type", JStr "remove_background")])]
           [("task_type", JStr "remove_background")] sample_state).
  - reflexivity.
  - reflexivity.
  - reflexivity.
Defined.

(** Once its working directory can be made, a background-removal job
    never raises: whatever the loader, the segmentation, the save or the
    re-encoding do, and whatever value [image_path] holds, the handler
    returns a result, with a payload or with an error message. *)
Theorem handler_remove_background_always_returns (w : World) (event job_input : dict)
    (σ : State) :
  get_or "input" JNull event = JDict job_input ->
  dict_get "task_type" job_input = Some (JStr "remove_background") ->
  makedirs_error w
    (os_path.join "/tmp" ["bg_removed"; py_str w (get_or "id" (JStr "unknown") event)])
    = None ->
  exists r σ', handler w event σ = (Ret r, σ') /\ result_wf r.
Proof.
  intros Hin Htask Hmk. rewrite (remove_background_task w event job_input Hin Htask).
  unfold _handle_remove_background.
  destruct (negb (truthy (get_or "image_path" JNull job_input))).
  - eexists _, _. split; [reflexivity | apply failed_wf].
  - rewrite (bind_ok _ _ _ _ _ (makedirs_ok w _ σ Hmk)).
    apply always_try; [yields_step | auto with job].
Qed.

Lemma handler_remove_background_always_returns_witness :
  exists r σ',
    handler sample_world
      [("id", JStr "job-2");
       ("input", JDict [("task_type", JStr "remove_background"); ("image_path", JInt 5)])]
      sample_state = (Ret r, σ') /\ result_wf r.
Proof.
  apply (handler_remove_background_always_returns sample_world
           [("id", JStr "job-2");
            ("input", JDict [("task_type", JStr "remove_background");
                             ("image_path", JInt 5)])]
           [("task_type", JStr "remove_background"); ("image_path", JInt 5)]
           sample_state).
  - reflexivity.
  - reflexivity.
  - reflexivity.
Defined.

(** A background-removal job for a reference that [urlparse] takes for a
    local path, with no image on disk behind it, is
    answered with a failed result carrying the loader's message; after the
    working directory was made and the open attempted, nothing else was
    called -- no session, no segmentation, no save -- and no file written. *)
Theorem handler_remove_background_missing_file (w : World) (event job_input : dict)
    (reference : string) (parsed : ParseResult) (σ : State) :
  get_or "input" JNull event = JDict job_input ->
  dict_get "task_type" job_input = Some (JStr "remove_background") ->
  dict_get "image_path" job_input = Some (JStr reference) ->
  reference <> "" ->
  let tmp_dir :=
    os_path.join "/tmp" ["bg_removed"; py_str w (get_or "id" (JStr "unknown") event)] in
  makedirs_error w tmp_dir = None ->
  urlparse w reference = Ret parsed ->
  is_http (scheme parsed) = false ->
  fs σ !! reference = None ->
  exists σ',
    handler w event σ = (Ret (failed (exn_text (open_error w reference))), σ') /\
    new_calls σ σ' = [CallMakedirs tmp_dir; CallImageOpen reference] /\
    fs σ' = fs σ.
Proof.
  intros Hin Htask Hpath Hne tmp_dir Hmk Hparse Hlocal Hnone.
  rewrite (remove_background_task w event job_input Hin Htask).
  unfold _handle_remove_background.
  assert (get_or "image_path" JNull job_input = JStr reference) as ->
    by (unfold get_or; by rewrite Hpath).
  assert (negb (truthy (JStr reference)) = false) as ->.
  { simpl. apply String.eqb_neq in Hne. by rewrite Hne. }
  fold tmp_dir. rewrite (bind_ok _ _ _ _ _ (makedirs_ok w tmp_dir σ Hmk)).
  unfold try_except, remove_background, as_reference, Image_open, bind, ret, raise, log,
    lift.
  rewrite Hparse, Hlocal. cbn. rewrite Hnone. cbn.
  eexists. split; [reflexivity|]. split; [|reflexivity].
  unfold new_calls; cbn. rewrite <- app_assoc. by rewrite drop_app_length.
Qed.

Lemma handler_remove_background_missing_file_witness :
  exists σ',
    handler sample_world
      [("id", JStr "job-4");
       ("input", JDict [("task_type", JStr "remove_background");
                        ("image_path", JStr "missing.png")])]
      sample_state
    = (Ret (failed (exn_text (open_error sample_world "missing.png"))), σ') /\
    new_calls sample_state σ'
    = [CallMakedirs "/tmp/bg_removed/job-4"; CallImageOpen "missing.png"] /\
    fs σ' = fs sample_state.
Proof.
  apply (handler_remove_background_missing_file sample_world
           [("id", JStr "job-4");
            ("input", JDict [("task_type", JStr "remove_background");
                             ("image_path", JStr "missing.png")])]
           [("task_type", JStr "remove_background"); ("image_path", JStr "missing.png")]
           "missing.png" (sample_urlparse "missing.png") sample_state).
  - reflexivity.
  - reflexivity.
  - reflexivity.
  - discriminate.
  - reflexivity.
  - reflexivity.
  - reflexivity.
  - reflexivity.
Defined.

(** ** Generate jobs on the queue *)

Lemma infer_task (w : World) (event job_input : dict) :
  get_or "input" JNull event = JDict job_input ->
  json_eq_str (get_or "task_type" (JStr "infer") job_input) "infer" = true ->
  handler w event =
    _handle_infer w job_input (py_str w (get_or "id" (JStr "unknown") event)).
Proof.
  intros Hin Htask. rewrite (handler_dispatch w event job_input Hin); cbv zeta.
  by rewrite Htask.
Qed.

(** An event with no [input], or whose [input] is null, empty or
    otherwise falsy, is handled as a generate job with no fields: it is
    answered with the missing-fields failure and nothing runs.  An [input]
    that is truthy but not an object makes the handler raise
    [AttributeError]. *)
Theorem handler_input_shapes (w : World) (event : dict) (σ : State) :
  (truthy (get_or "input" JNull event) = false ->
   handler w event σ = (Ret (failed infer_required), σ)) /\
  (truthy (get_or "input" JNull event) = true ->
   (forall d, get_or "input" JNull event <> JDict d) ->
   exists e, exn_class e = "AttributeError" /\ handler w event σ = (Raise e, σ)).
Proof.
  unfold handler. split.
  - intros H. rewrite H. reflexivity.
  - intros H Hshape. rewrite H.
    destruct (get_or "input" JNull event) as [| | | | | |d] eqn:E;
      try (eexists; split; [|reflexivity]; reflexivity).
    by destruct (Hshape d).
Qed.

(** The numeric options are converted before the [try] block: when
    [int()] refuses the [height] of a generate job that passed validation,
    its exception leaves the handler, before any directory is made or any
    collaborator called. *)
Theorem handler_infer_bad_height_escapes (w : World) (event job_input : dict)
    (e : exn) (σ : State) :
  get_or "input" JNull event = JDict job_input ->
  json_eq_str (get_or "task_type" (JStr "infer") job_input) "infer" = true ->
  truthy (get_or "prompt" JNull job_input) = true ->
  truthy (get_or "image_paths" JNull job_input) = true ->
  py_int w (get_or "height" (JInt 1024) job_input) = Raise e ->
  handler w event σ = (Raise e, σ).
Proof.
  intros Hin Htask Hprompt Himages Hheight.
  rewrite (infer_task w event job_input Hin Htask).
  unfold _handle_infer. rewrite Hprompt, Himages; cbn [negb orb].
  unfold bind, lift. by rewrite Hheight.
Qed.

Lemma handler_infer_bad_height_escapes_witness :
  handler sample_world
    [("id", JStr "job-6");
     ("input", JDict [("prompt", JStr "a red coat");
                      ("image_paths", JList [JStr "person.png"]);
                      ("height", JStr "tall")])]
    sample_state
  = (Raise (Exn "ValueError" "invalid literal for int() with base 10: 'tall'"),
     sample_state).
Proof.
  apply (handler_infer_bad_height_escapes sample_world
           [("id", JStr "job-6");
            ("input", JDict [("prompt", JStr "a red coat");
                             ("image_paths", JList [JStr "person.png"]);
                             ("height", JStr "tall")])]
           [("prompt", JStr "a red coat"); ("image_paths", JList [JStr "person.png"]);
            ("height", JStr "tall")]).
  - reflexivity.
  - reflexivity.
  - reflexivity.
  - reflexivity.
  - reflexivity.
Defined.

(** Validation accepts any truthy [image_paths]: a number or [true] in
    its place passes the check, and when the options convert the handler
    raises [TypeError] at [len()], outside the [try] block, with nothing
    called. *)
Theorem handler_infer_unsized_images_escape (w : World) (event job_input : dict)
    (images : json) (height width steps : Z) (scale : float) (σ : State) :
  get_or "input" JNull event = JDict job_input ->
  json_eq_str (get_or "task_type" (JStr "infer") job_input) "infer" = true ->
  truthy (get_or "prompt" JNull job_input) = true ->
  get_or "image_paths" JNull job_input = images ->
  truthy images = true ->
  (exists z, images = JInt z) \/ (exists b, images = JBool b) \/ (exists f, images = JFloat f) ->
  py_int w (get_or "height" (JInt 1024) job_input) = Ret height ->
  py_int w (get_or "width" (JInt 1024) job_input) = Ret width ->
  py_float w (get_or "guidance_scale" (JFloat 1) job_input) = Ret scale ->
  py_int w (get_or "num_inference_steps" (JInt 10) job_input) = Ret steps ->
  exists e, exn_class e = "TypeError" /\ handler w event σ = (Raise e, σ).
Proof.
  intros Hin Htask Hprompt Himages Htruthy Hshape Hh Hw Hg Hs.
  rewrite (infer_task w event job_input Hin Htask).
  unfold _handle_infer. rewrite Hprompt, Himages, Htruthy; cbn [negb orb].
  unfold bind, lift. rewrite Hh, Hw, Hg, Hs.
  destruct Hshape as [[z ->]|[[b ->]|[f ->]]]; eexists; (split; [|reflexivity]);
    reflexivity.
Qed.

Lemma handler_infer_unsized_images_escape_witness :
  exists e, exn_class e = "TypeError" /\
    handler sample_world
      [("id", JStr "job-6");
       ("input", JDict [("prompt", JStr "a red coat"); ("image_paths", JInt 3)])]
      sample_state = (Raise e, sample_state).
Proof.
  apply (handler_infer_unsized_images_escape sample_world
           [("id", JStr "job-6");
            ("input", JDict [("prompt", JStr "a red coat"); ("image_paths", JInt 3)])]
           [("prompt", JStr "a red coat"); ("image_paths", JInt 3)]
           (JInt 3) 1024 1024 10 1%float).
  - reflexivity.
  - reflexivity.
  - reflexivity.
  - reflexivity.
  - reflexivity.
  - left. by exists 3.
  - reflexivity.
  - reflexivity.
  - reflexivity.
  - reflexivity.
Defined.

(** The loop over the images keeps their order: whenever it completes,
    the list it built holds, position by position, the path
    [tmp_dir/img_<idx>.png] for an image whose flag is set and the
    reference itself for any other. *)
Theorem preprocess_loop_paths (w : World) (tmp_dir : string) (flags : list bool)
    (items : list json) (idx : nat) (processed_paths out : list json) (σ : State) :
  fst (preprocess_loop w tmp_dir flags idx items processed_paths σ) = Ret out ->
  out = (processed_paths ++ expected_paths tmp_dir flags idx items)%list /\
  length out = (length processed_paths + length items)%nat.
Proof.
  intros H. assert (out = (processed_paths ++ expected_paths tmp_dir flags idx items)%list)
    as ->.
  2:{ split; [reflexivity|]. rewrite length_app. f_equal.
      clear. revert idx. induction items as [|p rest IH]; intros idx; [reflexivity|].
      cbn [expected_paths length]. by rewrite IH. }
  revert idx processed_paths σ H.
  induction items as [|p rest IH]; intros idx acc σ H;
    cbn [preprocess_loop expected_paths] in *.
  - rewrite app_nil_r. cbn in H. congruence.
  - destruct (flags !! idx) as [[|]|]; [| |discriminate].
    + unfold bind in H. destruct p; try discriminate. cbn -[remove_background] in H.
      pose proof (remove_background_effect w s
                    (Some (os_path.join tmp_dir ["img_" +:+ pretty idx +:+ ".png"]))
                    default_output_dir σ) as Heff.
      destruct (remove_background w s _ default_output_dir σ) as [[q|e] σ'];
        [|discriminate].
      cbv zeta in Heff. destruct Heff as [(parsed & _ & ->) _].
      apply IH in H. by rewrite <- app_assoc in H.
    + apply IH in H. by rewrite <- app_assoc in H.
Qed.

Lemma preprocess_loop_paths_witness :
  [JStr "/tmp/bg_removed/j/img_0.png"; JStr "top.jpg"]
  = ([] ++ expected_paths "/tmp/bg_removed/j" [true; false] 0
             [JStr "person.png"; JStr "top.jpg"])%list /\
  length [JStr "/tmp/bg_removed/j/img_0.png"; JStr "top.jpg"]
  = (length (@nil json) + length [JStr "person.png"; JStr "top.jpg"])%nat.
Proof.
  apply (preprocess_loop_paths sample_world "/tmp/bg_removed/j" [true; false]
           [JStr "person.png"; JStr "top.jpg"] 0 []
           [JStr "/tmp/bg_removed/j/img_0.png"; JStr "top.jpg"] sample_state).
  vm_compute. reflexivity.
Defined.

Lemma load_images_exact (w : World) (refs : list string) (imgs : list image) :
  forall (acc : list image) (σ : State),
    Forall2 (fun r img => local_image w σ r img) refs imgs ->
    exists σ',
      load_images w (map JStr refs) acc σ = (Ret (acc ++ map convert_RGB imgs)%list, σ') /\
      fs σ' = fs σ.
Proof.
  revert imgs. induction refs as [|r refs IH]; intros imgs acc σ Hall.
  - apply Forall2_nil_inv_l in Hall as ->. exists σ. cbn. by rewrite app_nil_r.
  - apply Forall2_cons_inv_l
      in Hall as (img & imgs' & (parsed & Hparse & Hlocal & Himg) & Hrest & ->).
    destruct (IH imgs' (acc ++ [convert_RGB img])%list (with_call (CallImageOpen r) σ))
      as (σ' & Hrun & Hfs); [exact Hrest|].
    exists σ'. cbn [map load_images]. split; [|exact Hfs].
    rewrite (bind_ok _ _ σ σ r) by reflexivity.
    rewrite (bind_ok _ _ σ (with_call (CallImageOpen r) σ) (convert_RGB img)).
    + rewrite Hrun. by rewrite <- app_assoc.
    + unfold _load_image. rewrite (bind_ok _ _ σ σ parsed) by (unfold lift; by rewrite Hparse).
      rewrite Hlocal.
      by rewrite (bind_ok _ _ _ _ _ (Image_open_ok w r img σ Himg)).
Qed.

Lemma run_inference_exact (w : World) (prompt : json) (refs : list string)
    (imgs : list image) (height width : Z) (guidance_scale : float)
    (num_inference_steps : Z) (out : image) (σ : State) :
  PIPELINE σ = true \/ (from_pretrained w = Ret tt /\ to_device w = Ret tt) ->
  Forall2 (fun r img => local_image w σ r img) refs imgs ->
  pipe w prompt (map convert_RGB imgs) height width guidance_scale num_inference_steps
    = Ret out ->
  exists σ',
    run_inference w prompt (map JStr refs) height width guidance_scale
      num_inference_steps σ
    = (Ret (png_base64 w out), with_call (CallPipe prompt (map convert_RGB imgs)) σ') /\
    fs σ' = fs σ.
Proof.
  intros Hp Hrefs Hpipe. unfold run_inference.
  destruct (load_pipeline_ok w σ Hp) as (σ1 & Hload & Hfs1).
  rewrite (bind_ok _ _ _ _ _ Hload).
  destruct (load_images_exact w refs imgs [] σ1) as (σ2 & Himgs & Hfs2).
  { eapply Forall2_impl; [exact Hrefs|]. intros r img (parsed & ? & ? & ?).
    exists parsed. by rewrite Hfs1. }
  rewrite (bind_ok _ _ _ _ _ Himgs). cbn [app].
  unfold bind, log, lift, ret. rewrite Hpipe.
  exists σ2. split; [reflexivity | congruence].
Qed.

(** A generate job with no selector, whose images are references that
    [urlparse] takes for local paths, with an image on disk behind each: the options are converted with [int()] and [float()] (the
    defaults when absent), every file is opened in the order of the list
    and converted to RGB, the generator is called last, with those images
    and those options, and the payload is the encoding of the image it
    returns.  No file is written. *)
Theorem handler_infer_generates (w : World) (event job_input : dict) (prompt : json)
    (refs : list string) (imgs : list image) (height width steps : Z) (scale : float)
    (out : image) (σ : State) :
  get_or "input" JNull event = JDict job_input ->
  json_eq_str (get_or "task_type" (JStr "infer") job_input) "infer" = true ->
  get_or "prompt" JNull job_input = prompt ->
  truthy prompt = true ->
  get_or "image_paths" JNull job_input = JList (map JStr refs) ->
  refs <> [] ->
  dict_get "remove_background" job_input = None ->
  py_int w (get_or "height" (JInt 1024) job_input) = Ret height ->
  py_int w (get_or "width" (JInt 1024) job_input) = Ret width ->
  py_float w (get_or "guidance_scale" (JFloat 1) job_input) = Ret scale ->
  py_int w (get_or "num_inference_steps" (JInt 10) job_input) = Ret steps ->
  makedirs_error w
    (os_path.join "/tmp" ["bg_removed"; py_str w (get_or "id" (JStr "unknown") event)])
    = None ->
  PIPELINE σ = true \/ (from_pretrained w = Ret tt /\ to_device w = Ret tt) ->
  Forall2 (fun r img => local_image w σ r img) refs imgs ->
  pipe w prompt (map convert_RGB imgs) height width scale steps = Ret out ->
  exists σ',
    handler w event σ = (Ret (succeeded (png_base64 w out)), σ') /\
    last (calls σ') = Some (CallPipe prompt (map convert_RGB imgs)) /\
    fs σ' = fs σ.
Proof.
  intros Hin Htask Hprompt Htruthy Himages Hrefs Hsel Hh Hw Hg Hs Hmk Hp Hfiles Hpipe.
  rewrite (infer_task w event job_input Hin Htask).
  unfold _handle_infer. rewrite Hprompt, Himages, Htruthy.
  assert (truthy (JList (map JStr refs)) = true) as -> by (by destruct refs).
  cbn [negb orb].
  assert (get_or "remove_background" JNull job_input = JNull) as ->
    by (unfold get_or; by rewrite Hsel).
  rewrite Hh, Hw, Hg, Hs.
  rewrite (bind_ok _ _ σ σ height) by reflexivity.
  rewrite (bind_ok _ _ σ σ width) by reflexivity.
  rewrite (bind_ok _ _ σ σ scale) by reflexivity.
  rewrite (bind_ok _ _ σ σ steps) by reflexivity.
  rewrite (bind_ok _ _ σ σ (replicate (length (map JStr refs)) false)) by reflexivity.
  rewrite (bind_ok _ _ _ _ _ (makedirs_ok w _ σ Hmk)).
  rewrite (bind_ok _ _ _ _ (map JStr refs)) by reflexivity.
  rewrite (bind_ok _ _ _ _ _ (preprocess_loop_no_flags w _ _ (map JStr refs) 0 [] _
                                (Nat.le_refl _))).
  cbn [app].
  destruct (run_inference_exact w prompt refs imgs height width scale steps out
              (with_call (CallMakedirs (os_path.join "/tmp"
                 ["bg_removed"; py_str w (get_or "id" (JStr "unknown") event)])) σ)
              Hp Hfiles Hpipe) as (σ' & Hrun & Hfs).
  eexists. split; [|split].
  - apply try_ok. by rewrite (bind_ok _ _ _ _ _ Hrun).
  - cbn [with_call calls]. apply last_snoc.
  - exact Hfs.
Qed.

Lemma handler_infer_generates_witness :
  exists σ',
    handler sample_world sized_job sample_state
    = (Ret (succeeded (png_base64 sample_world sample_person)), σ') /\
    last (calls σ')
    = Some (CallPipe (JStr "a red coat")
              (map convert_RGB [sample_person; sample_person])) /\
    fs σ' = fs sample_state.
Proof.
  apply (handler_infer_generates sample_world sized_job
           [("prompt", JStr "a red coat");
            ("image_paths", JList [JStr "person.png"; JStr "top.jpg"]);
            ("height", JFloat 512.5); ("num_inference_steps", JBool true)]
           (JStr "a red coat") ["person.png"; "top.jpg"] [sample_person; sample_person]
           512 1024 1 1%float sample_person sample_state).
  - reflexivity.
  - reflexivity.
  - reflexivity.
  - reflexivity.
  - reflexivity.
  - discriminate.
  - reflexivity.
  - reflexivity.
  - reflexivity.
  - reflexivity.
  - reflexivity.
  - reflexivity.
  - right. split; reflexivity.
  - repeat constructor.
    + by exists (sample_urlparse "person.png").
    + by exists (sample_urlparse "top.jpg").
  - reflexivity.
Defined.

(** ** The HTTP generation endpoint *)

(** [POST /infer] with a first image that [urlparse] takes for a local
    path, with no image on disk behind it: once the pipeline is available the loader's exception is
    caught and answered as a failed response with its message; the open
    attempt is the last call made, so the generator never ran, and no file
    was written. *)
Theorem infer_missing_first_image (w : World) (request : InferenceRequest)
    (r : string) (rest : list string) (parsed : ParseResult) (σ : State) :
  image_paths request = r :: rest ->
  PIPELINE σ = true \/ (from_pretrained w = Ret tt /\ to_device w = Ret tt) ->
  urlparse w r = Ret parsed ->
  is_http (scheme parsed) = false ->
  fs σ !! r = None ->
  exists σ',
    infer w request σ = (Ret (failed (exn_text (open_error w r))), σ') /\
    last (calls σ') = Some (CallImageOpen r) /\
    fs σ' = fs σ.
Proof.
  intros Hpaths Hp Hparse Hlocal Hnone.
  destruct (load_pipeline_ok w σ Hp) as (σ1 & Hload & Hfs1).
  assert (run_inference w (JStr (prompt request)) (map JStr (image_paths request))
            (height request) (width request) (guidance_scale request)
            (num_inference_steps request) σ
          = (Raise (open_error w r), with_call (CallImageOpen r) σ1)) as Hrun.
  { unfold run_inference. rewrite Hpaths, (bind_ok _ _ _ _ _ Hload).
    cbn [map load_images].
    unfold as_reference, _load_image, Image_open, bind, ret, raise, log, lift. cbn.
    rewrite Hparse, Hlocal. cbn. by rewrite Hfs1, Hnone. }
  unfold infer, try_except, bind. rewrite Hrun.
  eexists. split; [reflexivity|]. split; [apply last_snoc | exact Hfs1].
Qed.

Lemma infer_missing_first_image_witness :
  exists σ',
    infer sample_world
      {| prompt := "a red coat"; image_paths := ["missing.png"; "top.jpg"];
         height := 1024; width := 1024; guidance_scale := 1%float;
         num_inference_steps := 10 |} sample_state
    = (Ret (failed (exn_text (open_error sample_world "missing.png"))), σ') /\
    last (calls σ') = Some (CallImageOpen "missing.png") /\
    fs σ' = fs sample_state.
Proof.
  apply (infer_missing_first_image sample_world
           {| prompt := "a red coat"; image_paths := ["missing.png"; "top.jpg"];
              height := 1024; width := 1024; guidance_scale := 1%float;
              num_inference_steps := 10 |} "missing.png" ["top.jpg"]
           (sample_urlparse "missing.png") sample_state).
  - reflexivity.
  - right. split; reflexivity.
  - reflexivity.
  - reflexivity.
  - reflexivity.
Defined.

(** ** References [urlparse] refuses *)

(** A background-removal job on a reference that [urlparse] refuses (an
    unbalanced bracket in the host part, for one) is answered with a failed
    result carrying that exception's text, whether or not a file of that
    name exists: after the working directory was made nothing was called,
    and no file was opened or written. *)
Theorem handler_remove_background_bad_reference (w : World) (event job_input : dict)
    (reference : string) (e : exn) (σ : State) :
  get_or "input" JNull event = JDict job_input ->
  dict_get "task_type" job_input = Some (JStr "remove_background") ->
  dict_get "image_path" job_input = Some (JStr reference) ->
  reference <> "" ->
  let tmp_dir :=
    os_path.join "/tmp" ["bg_removed"; py_str w (get_or "id" (JStr "unknown") event)] in
  makedirs_error w tmp_dir = None ->
  urlparse w reference = Raise e ->
  exists σ',
    handler w event σ = (Ret (failed (exn_text e)), σ') /\
    new_calls σ σ' = [CallMakedirs tmp_dir] /\
    fs σ' = fs σ.
Proof.
  intros Hin Htask Hpath Hne tmp_dir Hmk Hparse.
  rewrite (remove_background_task w event job_input Hin Htask).
  unfold _handle_remove_background.
  assert (get_or "image_path" JNull job_input = JStr reference) as ->
    by (unfold get_or; by rewrite Hpath).
  assert (negb (truthy (JStr reference)) = false) as ->.
  { simpl. apply String.eqb_neq in Hne. by rewrite Hne. }
  fold tmp_dir. rewrite (bind_ok _ _ _ _ _ (makedirs_ok w tmp_dir σ Hmk)).
  unfold try_except, remove_background, as_reference, bind, ret, raise, lift.
  rewrite Hparse. cbn.
  eexists. split; [reflexivity|]. split; [|reflexivity].
  unfold new_calls; cbn. by rewrite drop_app_length.
Qed.

Lemma handler_remove_background_bad_reference_witness :
  exists σ',
    handler sample_world
      [("id", JStr "job-4");
       ("input", JDict [("task_type", JStr "remove_background");
                        ("image_path", JStr "x://[a/b.png")])]
      sample_state
    = (Ret (failed "Invalid IPv6 URL"), σ') /\
    new_calls sample_state σ' = [CallMakedirs "/tmp/bg_removed/job-4"] /\
    fs σ' = fs sample_state.
Proof.
  apply (handler_remove_background_bad_reference sample_world
           [("id", JStr "job-4");
            ("input", JDict [("task_type", JStr "remove_background");
                             ("image_path", JStr "x://[a/b.png")])]
           [("task_type", JStr "remove_background"); ("image_path", JStr "x://[a/b.png")]
           "x://[a/b.png" (Exn "ValueError" "Invalid IPv6 URL") sample_state).
  - reflexivity.
  - reflexivity.
  - reflexivity.
  - discriminate.
  - reflexivity.
  - reflexivity.
Defined.
